(** * netbox_acls.forms.models: the validation passes of the four GUI forms

    A shallow embedding of [src/netbox_acls/forms/models.py].  Each form's
    [clean] is a function from the database rows it queries and the bound
    form to an [outcome]; each [save] is a function to the updated model
    instance.  Error dictionaries are finite maps from field names to
    message lists, merged the way Python's [|=] merges them. *)

From stdpp Require Import gmap strings list fin_maps.

Local Open Scope string_scope.

(** ** Python values *)

(** [bool(x)], as [if x:], [and], [or] and [not] read it. *)
Class Truthy (A : Type) := truthy : A → bool.
Global Hint Mode Truthy ! : typeclass_instances.

(** A string is true when it is not empty. *)
Global Instance string_truthy : Truthy string :=
  λ s, match s with EmptyString => false | String _ _ => true end.

(** A list is true when it is not empty; [QuerySet.exists()] on a list of
    rows is the same test. *)
Global Instance list_truthy {A} : Truthy (list A) :=
  λ l, match l with [] => false | _ :: _ => true end.

(** [None] is false; a present value is as true as it is itself. *)
Global Instance option_truthy {A} `{!Truthy A} : Truthy (option A) :=
  λ o, match o with None => false | Some a => truthy a end.

(** A dict is true when it has a key. *)
Global Instance dict_truthy : Truthy (gmap string (list string)) :=
  λ m, negb (bool_decide (m = ∅)).

(** Primary keys are positive integers. *)
Global Instance pk_truthy : Truthy positive := λ _, true.

(** [a or b]. *)
Definition py_or {A} `{!Truthy A} (a b : A) : A := if truthy a then a else b.

(** [d |= e]: the keys of [e] are written over those of [d]. *)
Definition dict_ior {V} (d e : gmap string V) : gmap string V := e ∪ d.

(** ** What [clean] can do *)

(** [forms.ValidationError] is raised with one message (an error of the
    form as a whole) or with a dict from field names to message lists. *)
Inductive ValidationError :=
| Message (msg : string)
| ErrorDict (error_message : gmap string (list string)).

Inductive outcome (A : Type) :=
| Return (a : A)
| Raise (e : ValidationError)
| AttributeError.
Global Arguments Return {A} a.
Global Arguments Raise {A} e.
Global Arguments AttributeError {A}.

(** The error [e] shows [msg] under the field [field]. *)
Definition keyed_on (e : ValidationError) (field msg : string) : Prop :=
  match e with
  | Message _ => False
  | ErrorDict error_message =>
      ∃ l, error_message !! field = Some l ∧ msg ∈ l
  end.

(** [if error_message: raise forms.ValidationError(error_message)] and then
    [return cleaned_data]. *)
Definition raise_or_return {A} (error_message : gmap string (list string))
    (cleaned_data : A) : outcome A :=
  if truthy error_message then Raise (ErrorDict error_message)
  else Return cleaned_data.

(** ** Rows of the host application's tables

    Django compares two model instances by concrete model and primary key,
    so a row is modelled by its key and the foreign keys the forms read. *)

Record Device := { device_pk : positive }.
Record VirtualChassis := { virtual_chassis_pk : positive }.
Record VirtualMachine := { virtual_machine_pk : positive }.
Record Interface := { interface_pk : positive; interface_device : Device }.
Record VMInterface :=
  { vminterface_pk : positive; vminterface_virtual_machine : VirtualMachine }.

(** What the generic foreign key of an AccessList can point to. *)
Inductive Host :=
| HostDevice (d : Device)
| HostVirtualChassis (vc : VirtualChassis)
| HostVirtualMachine (vm : VirtualMachine).

(** A row of the AccessList table. *)
Record AccessList := {
  acl_pk : positive;
  acl_name : string;
  acl_assigned_object : option Host
}.

Global Instance Device_eq_dec : EqDecision Device.
Proof. solve_decision. Defined.
Global Instance VirtualChassis_eq_dec : EqDecision VirtualChassis.
Proof. solve_decision. Defined.
Global Instance VirtualMachine_eq_dec : EqDecision VirtualMachine.
Proof. solve_decision. Defined.
Global Instance Host_eq_dec : EqDecision Host.
Proof. solve_decision. Defined.

(** Model instances define neither [__bool__] nor [__len__]. *)
Global Instance Device_truthy : Truthy Device := λ _, true.
Global Instance VirtualChassis_truthy : Truthy VirtualChassis := λ _, true.
Global Instance VirtualMachine_truthy : Truthy VirtualMachine := λ _, true.
Global Instance Interface_truthy : Truthy Interface := λ _, true.
Global Instance VMInterface_truthy : Truthy VMInterface := λ _, true.
Global Instance Host_truthy : Truthy Host := λ _, true.
Global Instance AccessList_truthy : Truthy AccessList := λ _, true.

(** A value of the [initial] dict a form is built with: a host, an
    interface of either kind, or text. *)
Inductive InitialValue :=
| InitialHost (h : Host)
| InitialInterface (i : Interface)
| InitialVMInterface (v : VMInterface)
| InitialText (s : string).

(** ** AccessListForm *)

Module AccessListForm.

(** [self.instance]: the AccessList being created ([pk] is [None]) or
    edited, with its two reverse relations to rules. *)
Record Instance := {
  pk : option positive;
  assigned_object : option Host;
  aclstandardrules : list positive;
  aclextendedrules : list positive
}.

(** The keys of [cleaned_data] that [clean] and [save] read; a key that is
    absent reads as [None]. *)
Record CleanedData := {
  name : option string;
  type : option string;
  device : option Device;
  virtual_chassis : option VirtualChassis;
  virtual_machine : option VirtualMachine
}.

Record Form := {
  errors : gmap string (list string);
  changed_data : list string;
  cleaned_data : CleanedData;
  instance : Instance
}.

(** [AccessList.objects.filter(name=name, <host kind>=host)]. *)
Definition objects_filter (objects : list AccessList) (name : option string)
    (host : Host) : list AccessList :=
  filter (λ a, Some (acl_name a) = name ∧ acl_assigned_object a = Some host)
    objects.

Definition error_too_many_hosts : string :=
  "Access Lists must be assigned to one host (either a device, virtual chassis or virtual machine) at a time.".
Definition error_no_host : string :=
  "Access Lists must be assigned to a device, virtual chassis or virtual machine.".
Definition error_same_acl_name : string :=
  "An ACL with this name is already associated to this host.".
Definition error_type_change : string :=
  "This ACL has ACL rules associated, CANNOT change ACL type.".

Section clean.
(** [ACLTypeChoices.TYPE_STANDARD] and [ACLTypeChoices.TYPE_EXTENDED], from
    [..choices]. *)
Variables TYPE_STANDARD TYPE_EXTENDED : string.

(** The host branch of [clean]: the field name and whether an AccessList
    of that name is on the host already. *)
Definition host_type_existing_acls (objects : list AccessList)
    (cleaned_data : CleanedData) : string * bool :=
  let name := name cleaned_data in
  match device cleaned_data with
  | Some device =>
      ("device", truthy (objects_filter objects name (HostDevice device)))
  | None =>
      match virtual_machine cleaned_data with
      | Some virtual_machine =>
          ("virtual_machine",
           truthy (objects_filter objects name
                     (HostVirtualMachine virtual_machine)))
      | None =>
          ("virtual_chassis",
           match virtual_chassis cleaned_data with
           | Some virtual_chassis =>
               truthy (objects_filter objects name
                         (HostVirtualChassis virtual_chassis))
           | None => false (* not reached: no host at all raised before *)
           end)
      end
  end.

Definition clean (objects : list AccessList) (self : Form)
    : outcome CleanedData :=
  let cleaned_data := cleaned_data self in
  let error_message : gmap string (list string) := ∅ in
  if truthy (errors self !! "name") then Return cleaned_data else
  let acl_type := type cleaned_data in
  let device := device cleaned_data in
  let virtual_chassis := virtual_chassis cleaned_data in
  let virtual_machine := virtual_machine cleaned_data in
  (* Check if more than one host type selected. *)
  if (truthy device && truthy virtual_chassis)
     || (truthy device && truthy virtual_machine)
     || (truthy virtual_chassis && truthy virtual_machine)
  then Raise (Message error_too_many_hosts) else
  (* Check if no hosts selected. *)
  if negb (truthy device) && negb (truthy virtual_chassis)
     && negb (truthy virtual_machine)
  then Raise (Message error_no_host) else
  let '(host_type, existing_acls) :=
    host_type_existing_acls objects cleaned_data in
  (* Check if duplicate entry. *)
  let error_message :=
    if (bool_decide ("name" ∈ changed_data self)
        || bool_decide (host_type ∈ changed_data self))
       && existing_acls
    then dict_ior error_message
           (<["name" := [error_same_acl_name]]>
              (<[host_type := [error_same_acl_name]]> ∅))
    else error_message in
  (* Check if Access List has no existing rules before change the Access
     List's type. *)
  let error_message :=
    if truthy (pk (instance self))
       && ((bool_decide (acl_type = Some TYPE_EXTENDED)
            && truthy (aclstandardrules (instance self)))
           || (bool_decide (acl_type = Some TYPE_STANDARD)
               && truthy (aclextendedrules (instance self))))
    then <["type" := [error_type_change]]> error_message
    else error_message in
  raise_or_return error_message cleaned_data.
End clean.

(** [self.instance.assigned_object = device or virtual_chassis or
    virtual_machine]; the row is then stored by the host application. *)
Definition save (self : Form) : Instance :=
  let cleaned_data := cleaned_data self in
  {| pk := pk (instance self);
     assigned_object :=
       py_or (HostDevice <$> device cleaned_data)
         (py_or (HostVirtualChassis <$> virtual_chassis cleaned_data)
                (HostVirtualMachine <$> virtual_machine cleaned_data));
     aclstandardrules := aclstandardrules (instance self);
     aclextendedrules := aclextendedrules (instance self) |}.

(** [__init__]: the [initial] dict handed on to the base class.  [instance]
    and [initial] are the keyword arguments of those names, [None] when the
    caller gave none; [isinstance] reads the kind of the assigned host. *)
Definition __init__ (instance : option Instance)
    (initial : option (gmap string InitialValue))
    : gmap string InitialValue :=
  let initial := default ∅ initial in
  match instance with
  | Some instance =>
      match assigned_object instance with
      | Some (HostDevice d) =>
          <["device" := InitialHost (HostDevice d)]> initial
      | Some (HostVirtualChassis vc) =>
          <["virtual_chassis" := InitialHost (HostVirtualChassis vc)]> initial
      | Some (HostVirtualMachine vm) =>
          <["virtual_machine" := InitialHost (HostVirtualMachine vm)]> initial
      | None => initial
      end
  | None => initial
  end.

End AccessListForm.

(** ** ACLInterfaceAssignmentForm *)

(** [ContentType.objects.get_for_model(assigned_object).pk]: one content
    type per model. *)
Inductive ContentType := InterfaceType | VMInterfaceType.

Global Instance ContentType_eq_dec : EqDecision ContentType.
Proof. solve_decision. Defined.

(** A row of the ACLInterfaceAssignment table: the AccessList's key, the
    generic foreign key to the interface, and the direction. *)
Record ACLInterfaceAssignment := {
  assignment_access_list : positive;
  assignment_assigned_object_type : ContentType;
  assignment_assigned_object_id : positive;
  assignment_direction : string
}.

(** What the generic foreign key of an assignment can point to. *)
Inductive AssignedInterface :=
| OfInterface (i : Interface)
| OfVMInterface (v : VMInterface).

Global Instance AssignedInterface_truthy : Truthy AssignedInterface :=
  λ _, true.

Module ACLInterfaceAssignmentForm.

Record Instance := { assigned_object : option AssignedInterface }.

(** The keys of [cleaned_data] that [clean] and [save] read.  A field that
    failed its own validation is absent and reads as [None]; [access_list]
    is the one required field among them. *)
Record CleanedData := {
  access_list : option AccessList;
  direction : option string;
  interface : option Interface;
  vminterface : option VMInterface
}.

Record Form := {
  cleaned_data : CleanedData;
  instance : Instance
}.

(** [ACLInterfaceAssignment.objects.filter(access_list=..,
    assigned_object_id=.., assigned_object_type=.., direction=..)]. *)
Definition objects_filter_access_list (objects : list ACLInterfaceAssignment)
    (access_list : AccessList) (assigned_object_id : positive)
    (assigned_object_type : ContentType) (direction : option string)
    : list ACLInterfaceAssignment :=
  filter (λ r, assignment_access_list r = acl_pk access_list
               ∧ assignment_assigned_object_id r = assigned_object_id
               ∧ assignment_assigned_object_type r = assigned_object_type
               ∧ Some (assignment_direction r) = direction)
    objects.

(** [ACLInterfaceAssignment.objects.filter(assigned_object_id=..,
    assigned_object_type=.., direction=..)]. *)
Definition objects_filter (objects : list ACLInterfaceAssignment)
    (assigned_object_id : positive) (assigned_object_type : ContentType)
    (direction : option string) : list ACLInterfaceAssignment :=
  filter (λ r, assignment_assigned_object_id r = assigned_object_id
               ∧ assignment_assigned_object_type r = assigned_object_type
               ∧ Some (assignment_direction r) = direction)
    objects.

Definition error_too_many_interfaces : string :=
  "Access Lists must be assigned to one type of interface at a time (VM interface or physical interface)".
Definition error_no_interface : string :=
  "An Access List assignment but specify an Interface or VM Interface.".
Definition error_acl_not_assigned_to_host : string :=
  "Access List not present on selected host.".
Definition error_duplicate_entry : string :=
  "An ACL with this name is already associated to this interface & direction.".
Definition error_interface_already_assigned : string :=
  "Interfaces can only have 1 Access List assigned in each direction.".

(** The [else] branch of [clean], once the one interface that is set has
    given [assigned_object_type], [host_type], [host], [assigned_object_id]
    and [assigned_object_type_id].  The rows in [cleaned_data] were read
    from their tables while the fields were cleaned, so
    [Interface.objects.get(pk=assigned_object.pk)] and
    [AccessList.objects.get(pk=access_list.pk)] give those rows again; what
    can fail is [access_list.pk] when [access_list] is [None]. *)
Definition clean_assigned (objects : list ACLInterfaceAssignment)
    (cleaned_data : CleanedData) (assigned_object_type host_type : string)
    (host : Host) (assigned_object_id : positive)
    (assigned_object_type_id : ContentType) : outcome CleanedData :=
  let error_message : gmap string (list string) := ∅ in
  let direction := direction cleaned_data in
  match access_list cleaned_data with
  | None => AttributeError
  | Some access_list =>
      let access_list_host := acl_assigned_object access_list in
      (* Check that an interface's parent device/virtual_machine is assigned
         to the Access List. *)
      let error_message :=
        if bool_decide (access_list_host ≠ Some host)
        then dict_ior error_message
               (<[host_type := [error_acl_not_assigned_to_host]]>
                  (<[assigned_object_type := [error_acl_not_assigned_to_host]]>
                     (<["access_list" := [error_acl_not_assigned_to_host]]>
                        ∅)))
        else error_message in
      (* Check for duplicate entry. *)
      let error_message :=
        if truthy (objects_filter_access_list objects access_list
                     assigned_object_id assigned_object_type_id direction)
        then dict_ior error_message
               (<[assigned_object_type := [error_duplicate_entry]]>
                  (<["direction" := [error_duplicate_entry]]>
                     (<["access_list" := [error_duplicate_entry]]> ∅)))
        else error_message in
      (* Check that the interface does not have an existing ACL applied in
         the direction already. *)
      let error_message :=
        if truthy (objects_filter objects assigned_object_id
                     assigned_object_type_id direction)
        then dict_ior error_message
               (<[assigned_object_type := [error_interface_already_assigned]]>
                  (<["direction" := [error_interface_already_assigned]]> ∅))
        else error_message in
      raise_or_return error_message cleaned_data
  end.

Definition clean (objects : list ACLInterfaceAssignment) (self : Form)
    : outcome CleanedData :=
  let cleaned_data := cleaned_data self in
  let error_message : gmap string (list string) := ∅ in
  match interface cleaned_data, vminterface cleaned_data with
  | Some _, Some _ =>
      (* Check if both interface and vminterface are set. *)
      raise_or_return
        (dict_ior error_message
           (<["vminterface" := [error_too_many_interfaces]]>
              (<["interface" := [error_too_many_interfaces]]> ∅)))
        cleaned_data
  | None, None =>
      (* elif not (interface or vminterface) *)
      raise_or_return
        (dict_ior error_message
           (<["vminterface" := [error_no_interface]]>
              (<["interface" := [error_no_interface]]> ∅)))
        cleaned_data
  | Some assigned_object, None =>
      clean_assigned objects cleaned_data "interface" "device"
        (HostDevice (interface_device assigned_object))
        (interface_pk assigned_object) InterfaceType
  | None, Some assigned_object =>
      clean_assigned objects cleaned_data "vminterface" "virtual_machine"
        (HostVirtualMachine (vminterface_virtual_machine assigned_object))
        (vminterface_pk assigned_object) VMInterfaceType
  end.

(** [self.instance.assigned_object = interface or vminterface]. *)
Definition save (self : Form) : Instance :=
  let cleaned_data := cleaned_data self in
  {| assigned_object :=
       py_or (OfInterface <$> interface cleaned_data)
             (OfVMInterface <$> vminterface cleaned_data) |}.

(** [__init__]: the [initial] dict handed on to the base class.  Beside the
    interface, the host selector of its kind is filled with the text
    ["device"] or ["virtual_machine"]. *)
Definition __init__ (instance : option Instance)
    (initial : option (gmap string InitialValue))
    : gmap string InitialValue :=
  let initial := default ∅ initial in
  match instance with
  | Some instance =>
      match assigned_object instance with
      | Some (OfInterface i) =>
          <["device" := InitialText "device"]>
            (<["interface" := InitialInterface i]> initial)
      | Some (OfVMInterface v) =>
          <["virtual_machine" := InitialText "virtual_machine"]>
            (<["vminterface" := InitialVMInterface v]> initial)
      | None => initial
      end
  | None => initial
  end.

End ACLInterfaceAssignmentForm.

(** ** The rule forms *)

(** A row of the host application's Prefix table. *)
Record Prefix := { prefix_pk : positive }.
Global Instance Prefix_truthy : Truthy Prefix := λ _, true.

Module ACLStandardRuleForm.

Record CleanedData := {
  action : option string;
  remark : option string;
  source_prefix : option Prefix
}.

Record Form := { cleaned_data : CleanedData }.

Section clean.
(** The three messages imported from [.constants]. *)
Variables ERROR_MESSAGE_NO_REMARK
          ERROR_MESSAGE_ACTION_REMARK_SOURCE_PREFIX_SET
          ERROR_MESSAGE_REMARK_WITHOUT_ACTION_REMARK : string.

Definition clean (self : Form) : outcome CleanedData :=
  let cleaned_data := cleaned_data self in
  let error_message : gmap string (list string) := ∅ in
  let error_message :=
    if bool_decide (action cleaned_data = Some "remark") then
      (* Check if action set to remark, but no remark set. *)
      let error_message :=
        if negb (truthy (remark cleaned_data))
        then <["remark" := [ERROR_MESSAGE_NO_REMARK]]> error_message
        else error_message in
      (* Check if action set to remark, but source_prefix set. *)
      if truthy (source_prefix cleaned_data)
      then <["source_prefix" :=
               [ERROR_MESSAGE_ACTION_REMARK_SOURCE_PREFIX_SET]]>
             error_message
      else error_message
    (* Check remark set, but action not set to remark. *)
    else if truthy (remark cleaned_data)
    then <["remark" := [ERROR_MESSAGE_REMARK_WITHOUT_ACTION_REMARK]]>
           error_message
    else error_message in
  raise_or_return error_message cleaned_data.
End clean.

End ACLStandardRuleForm.

Module ACLExtendedRuleForm.

Record CleanedData := {
  action : option string;
  remark : option string;
  source_prefix : option Prefix;
  source_ports : option (list Z);
  destination_prefix : option Prefix;
  destination_ports : option (list Z);
  protocol : option string
}.

Record Form := { cleaned_data : CleanedData }.

Section clean.
Variables ERROR_MESSAGE_NO_REMARK
          ERROR_MESSAGE_ACTION_REMARK_SOURCE_PREFIX_SET
          ERROR_MESSAGE_REMARK_WITHOUT_ACTION_REMARK : string.

(** The method fills the dict it is handed; here it returns it. *)
Definition _extracted_from_clean_20 (cleaned_data : CleanedData)
    (error_message : gmap string (list string))
    : gmap string (list string) :=
  (* Check if action set to remark, but no remark set. *)
  let error_message :=
    if negb (truthy (remark cleaned_data))
    then <["remark" := [ERROR_MESSAGE_NO_REMARK]]> error_message
    else error_message in
  (* Check if action set to remark, but source_prefix set. *)
  let error_message :=
    if truthy (source_prefix cleaned_data)
    then <["source_prefix" :=
             [ERROR_MESSAGE_ACTION_REMARK_SOURCE_PREFIX_SET]]>
           error_message
    else error_message in
  (* Check if action set to remark, but source_ports set. *)
  let error_message :=
    if truthy (source_ports cleaned_data)
    then <["source_ports" :=
             ["Action is set to remark, Source Ports CANNOT be set."]]>
           error_message
    else error_message in
  (* Check if action set to remark, but destination_prefix set. *)
  let error_message :=
    if truthy (destination_prefix cleaned_data)
    then <["destination_prefix" :=
             ["Action is set to remark, Destination Prefix CANNOT be set."]]>
           error_message
    else error_message in
  (* Check if action set to remark, but destination_ports set. *)
  let error_message :=
    if truthy (destination_ports cleaned_data)
    then <["destination_ports" :=
             ["Action is set to remark, Destination Ports CANNOT be set."]]>
           error_message
    else error_message in
  (* Check if action set to remark, but protocol set. *)
  if truthy (protocol cleaned_data)
  then <["protocol" :=
           ["Action is set to remark, Protocol CANNOT be set."]]>
         error_message
  else error_message.

Definition clean (self : Form) : outcome CleanedData :=
  let cleaned_data := cleaned_data self in
  let error_message : gmap string (list string) := ∅ in
  let error_message :=
    if bool_decide (action cleaned_data = Some "remark")
    then _extracted_from_clean_20 cleaned_data error_message
    else if truthy (remark cleaned_data)
    then <["remark" := [ERROR_MESSAGE_REMARK_WITHOUT_ACTION_REMARK]]>
           error_message
    else error_message in
  raise_or_return error_message cleaned_data.
End clean.

End ACLExtendedRuleForm.

(** ** Vocabulary of the properties *)

(** Field-level validation has recorded an error on [name]. *)
Definition name_error_recorded (self : AccessListForm.Form) : Prop :=
  ∃ l, AccessListForm.errors self !! "name" = Some l ∧ l ≠ [].

(** The host fields of an AccessList submission that are set, by name. *)
Definition hosts_set (cleaned_data : AccessListForm.CleanedData)
    : list string :=
  (if AccessListForm.device cleaned_data is Some _ then ["device"] else [])
  ++ (if AccessListForm.virtual_chassis cleaned_data is Some _
      then ["virtual_chassis"] else [])
  ++ (if AccessListForm.virtual_machine cleaned_data is Some _
      then ["virtual_machine"] else []).

(** The one host field that is set, with the host it holds; [None] when no
    host field or more than one is set. *)
Definition chosen_host (cleaned_data : AccessListForm.CleanedData)
    : option (string * Host) :=
  match AccessListForm.device cleaned_data,
        AccessListForm.virtual_chassis cleaned_data,
        AccessListForm.virtual_machine cleaned_data with
  | Some d, None, None => Some ("device", HostDevice d)
  | None, Some vc, None => Some ("virtual_chassis", HostVirtualChassis vc)
  | None, None, Some vm => Some ("virtual_machine", HostVirtualMachine vm)
  | _, _, _ => None
  end.

(** The one interface field of an assignment submission that is set: its
    name, the name of the host field that goes with it, the interface's
    parent host, and the generic key (id and content type) that stands for
    the interface in the assignment table. *)
Record ChosenInterface := {
  interface_field : string;
  host_field : string;
  parent_host : Host;
  object_id : positive;
  object_type : ContentType;
  object_row : AssignedInterface
}.

Definition chosen_interface
    (cleaned_data : ACLInterfaceAssignmentForm.CleanedData)
    : option ChosenInterface :=
  match ACLInterfaceAssignmentForm.interface cleaned_data,
        ACLInterfaceAssignmentForm.vminterface cleaned_data with
  | Some i, None =>
      Some {| interface_field := "interface"; host_field := "device";
              parent_host := HostDevice (interface_device i);
              object_id := interface_pk i; object_type := InterfaceType;
              object_row := OfInterface i |}
  | None, Some v =>
      Some {| interface_field := "vminterface";
              host_field := "virtual_machine";
              parent_host :=
                HostVirtualMachine (vminterface_virtual_machine v);
              object_id := vminterface_pk v; object_type := VMInterfaceType;
              object_row := OfVMInterface v |}
  | _, _ => None
  end.

(** The stored assignment [r] is on the interface [c] in the submitted
    direction. *)
Definition same_interface_direction
    (cleaned_data : ACLInterfaceAssignmentForm.CleanedData)
    (c : ChosenInterface) (r : ACLInterfaceAssignment) : Prop :=
  assignment_assigned_object_id r = object_id c
  ∧ assignment_assigned_object_type r = object_type c
  ∧ Some (assignment_direction r)
    = ACLInterfaceAssignmentForm.direction cleaned_data.

(** ** Sample rows and submissions *)

Definition device1 : Device := {| device_pk := 1 |}.
Definition device2 : Device := {| device_pk := 2 |}.
Definition vm1 : VirtualMachine := {| virtual_machine_pk := 1 |}.
Definition eth0 : Interface :=
  {| interface_pk := 10; interface_device := device1 |}.

(** The AccessList "edge-in" on device 1 and "core-in" on device 2. *)
Definition acl_edge : AccessList :=
  {| acl_pk := 1; acl_name := "edge-in";
     acl_assigned_object := Some (HostDevice device1) |}.
Definition acl_core : AccessList :=
  {| acl_pk := 2; acl_name := "core-in";
     acl_assigned_object := Some (HostDevice device2) |}.

(** "edge-in" is applied to eth0, inbound. *)
Definition edge_on_eth0 : ACLInterfaceAssignment :=
  {| assignment_access_list := 1;
     assignment_assigned_object_type := InterfaceType;
     assignment_assigned_object_id := 10;
     assignment_direction := "ingress" |}.

(** A new AccessList "edge-in" for device 1. *)
Definition add_edge_again : AccessListForm.Form :=
  {| AccessListForm.errors := ∅;
     AccessListForm.changed_data := ["name"; "type"; "device"];
     AccessListForm.cleaned_data :=
       {| AccessListForm.name := Some "edge-in";
          AccessListForm.type := Some "standard";
          AccessListForm.device := Some device1;
          AccessListForm.virtual_chassis := None;
          AccessListForm.virtual_machine := None |};
     AccessListForm.instance :=
       {| AccessListForm.pk := None;
          AccessListForm.assigned_object := None;
          AccessListForm.aclstandardrules := [];
          AccessListForm.aclextendedrules := [] |} |}.

(** "edge-in" opened for editing and submitted with only its comments
    changed. *)
Definition edit_edge_comments : AccessListForm.Form :=
  {| AccessListForm.errors := ∅;
     AccessListForm.changed_data := ["comments"];
     AccessListForm.cleaned_data :=
       {| AccessListForm.name := Some "edge-in";
          AccessListForm.type := Some "standard";
          AccessListForm.device := Some device1;
          AccessListForm.virtual_chassis := None;
          AccessListForm.virtual_machine := None |};
     AccessListForm.instance :=
       {| AccessListForm.pk := Some 1%positive;
          AccessListForm.assigned_object := Some (HostDevice device1);
          AccessListForm.aclstandardrules := [];
          AccessListForm.aclextendedrules := [] |} |}.

(** A new AccessList with both a device and a virtual machine chosen. *)
Definition add_two_hosts : AccessListForm.Form :=
  {| AccessListForm.errors := ∅;
     AccessListForm.changed_data :=
       ["name"; "type"; "device"; "virtual_machine"];
     AccessListForm.cleaned_data :=
       {| AccessListForm.name := Some "edge-in";
          AccessListForm.type := Some "standard";
          AccessListForm.device := Some device1;
          AccessListForm.virtual_chassis := None;
          AccessListForm.virtual_machine := Some vm1 |};
     AccessListForm.instance :=
       {| AccessListForm.pk := None;
          AccessListForm.assigned_object := None;
          AccessListForm.aclstandardrules := [];
          AccessListForm.aclextendedrules := [] |} |}.

(** "edge-in", which has one standard rule, switched to extended. *)
Definition edit_edge_to_extended : AccessListForm.Form :=
  {| AccessListForm.errors := ∅;
     AccessListForm.changed_data := ["type"];
     AccessListForm.cleaned_data :=
       {| AccessListForm.name := Some "edge-in";
          AccessListForm.type := Some "extended";
          AccessListForm.device := Some device1;
          AccessListForm.virtual_chassis := None;
          AccessListForm.virtual_machine := None |};
     AccessListForm.instance :=
       {| AccessListForm.pk := Some 1%positive;
          AccessListForm.assigned_object := Some (HostDevice device1);
          AccessListForm.aclstandardrules := [7%positive];
          AccessListForm.aclextendedrules := [] |} |}.

(** The same edit with the device selector cleared as well. *)
Definition edit_edge_to_extended_no_host : AccessListForm.Form :=
  {| AccessListForm.errors := ∅;
     AccessListForm.changed_data := ["type"; "device"];
     AccessListForm.cleaned_data :=
       {| AccessListForm.name := Some "edge-in";
          AccessListForm.type := Some "extended";
          AccessListForm.device := None;
          AccessListForm.virtual_chassis := None;
          AccessListForm.virtual_machine := None |};
     AccessListForm.instance :=
       {| AccessListForm.pk := Some 1%positive;
          AccessListForm.assigned_object := Some (HostDevice device1);
          AccessListForm.aclstandardrules := [7%positive];
          AccessListForm.aclextendedrules := [] |} |}.

(** A submission whose name was refused by the field's own validation:
    [name] is then absent from [cleaned_data]. *)
Definition add_bad_name : AccessListForm.Form :=
  {| AccessListForm.errors := {[ "name" := ["This field is required."] ]};
     AccessListForm.changed_data := ["type"];
     AccessListForm.cleaned_data :=
       {| AccessListForm.name := None;
          AccessListForm.type := Some "standard";
          AccessListForm.device := None;
          AccessListForm.virtual_chassis := None;
          AccessListForm.virtual_machine := None |};
     AccessListForm.instance :=
       {| AccessListForm.pk := None;
          AccessListForm.assigned_object := None;
          AccessListForm.aclstandardrules := [];
          AccessListForm.aclextendedrules := [] |} |}.

(** "core-in", which lives on device 2, submitted for eth0 of device 1,
    inbound. *)
Definition assign_core_to_eth0 : ACLInterfaceAssignmentForm.Form :=
  {| ACLInterfaceAssignmentForm.cleaned_data :=
       {| ACLInterfaceAssignmentForm.access_list := Some acl_core;
          ACLInterfaceAssignmentForm.direction := Some "ingress";
          ACLInterfaceAssignmentForm.interface := Some eth0;
          ACLInterfaceAssignmentForm.vminterface := None |};
     ACLInterfaceAssignmentForm.instance :=
       {| ACLInterfaceAssignmentForm.assigned_object := None |} |}.

(** "edge-in" submitted for eth0, inbound. *)
Definition assign_edge_to_eth0 : ACLInterfaceAssignmentForm.Form :=
  {| ACLInterfaceAssignmentForm.cleaned_data :=
       {| ACLInterfaceAssignmentForm.access_list := Some acl_edge;
          ACLInterfaceAssignmentForm.direction := Some "ingress";
          ACLInterfaceAssignmentForm.interface := Some eth0;
          ACLInterfaceAssignmentForm.vminterface := None |};
     ACLInterfaceAssignmentForm.instance :=
       {| ACLInterfaceAssignmentForm.assigned_object := None |} |}.

(** eth0, inbound, submitted with the Access List selector left empty: the
    required field fails its own validation and [access_list] is absent
    from [cleaned_data]. *)
Definition assign_nothing_to_eth0 : ACLInterfaceAssignmentForm.Form :=
  {| ACLInterfaceAssignmentForm.cleaned_data :=
       {| ACLInterfaceAssignmentForm.access_list := None;
          ACLInterfaceAssignmentForm.direction := Some "ingress";
          ACLInterfaceAssignmentForm.interface := Some eth0;
          ACLInterfaceAssignmentForm.vminterface := None |};
     ACLInterfaceAssignmentForm.instance :=
       {| ACLInterfaceAssignmentForm.assigned_object := None |} |}.

(** "edge-in" submitted with both an interface and a VM interface. *)
Definition assign_edge_to_both : ACLInterfaceAssignmentForm.Form :=
  {| ACLInterfaceAssignmentForm.cleaned_data :=
       {| ACLInterfaceAssignmentForm.access_list := Some acl_edge;
          ACLInterfaceAssignmentForm.direction := Some "ingress";
          ACLInterfaceAssignmentForm.interface := Some eth0;
          ACLInterfaceAssignmentForm.vminterface :=
            Some {| vminterface_pk := 20;
                    vminterface_virtual_machine := vm1 |} |};
     ACLInterfaceAssignmentForm.instance :=
       {| ACLInterfaceAssignmentForm.assigned_object := None |} |}.

(** eth0 as the one interface of the three submissions above. *)
Definition eth0_chosen : ChosenInterface :=
  {| interface_field := "interface"; host_field := "device";
     parent_host := HostDevice device1; object_id := 10;
     object_type := InterfaceType; object_row := OfInterface eth0 |}.

(** A standard rule with action "remark", remark "blocked" and a source
    prefix. *)
Definition remark_with_prefix : ACLStandardRuleForm.Form :=
  {| ACLStandardRuleForm.cleaned_data :=
       {| ACLStandardRuleForm.action := Some "remark";
          ACLStandardRuleForm.remark := Some "blocked";
          ACLStandardRuleForm.source_prefix := Some {| prefix_pk := 5 |} |} |}.

(** An extended rule with action "permit" and remark "hello". *)
Definition permit_with_remark : ACLExtendedRuleForm.Form :=
  {| ACLExtendedRuleForm.cleaned_data :=
       {| ACLExtendedRuleForm.action := Some "permit";
          ACLExtendedRuleForm.remark := Some "hello";
          ACLExtendedRuleForm.source_prefix := None;
          ACLExtendedRuleForm.source_ports := None;
          ACLExtendedRuleForm.destination_prefix := None;
          ACLExtendedRuleForm.destination_ports := None;
          ACLExtendedRuleForm.protocol := None |} |}.

(** "stack-in" lives on a virtual chassis; it is submitted for eth0. *)
Definition acl_stack : AccessList :=
  {| acl_pk := 3; acl_name := "stack-in";
     acl_assigned_object :=
       Some (HostVirtualChassis {| virtual_chassis_pk := 1 |}) |}.

Definition assign_stack_to_eth0 : ACLInterfaceAssignmentForm.Form :=
  {| ACLInterfaceAssignmentForm.cleaned_data :=
       {| ACLInterfaceAssignmentForm.access_list := Some acl_stack;
          ACLInterfaceAssignmentForm.direction := Some "ingress";
          ACLInterfaceAssignmentForm.interface := Some eth0;
          ACLInterfaceAssignmentForm.vminterface := None |};
     ACLInterfaceAssignmentForm.instance :=
       {| ACLInterfaceAssignmentForm.assigned_object := None |} |}.

(** An extended rule with action "remark", no remark and a protocol. *)
Definition remark_with_protocol : ACLExtendedRuleForm.Form :=
  {| ACLExtendedRuleForm.cleaned_data :=
       {| ACLExtendedRuleForm.action := Some "remark";
          ACLExtendedRuleForm.remark := None;
          ACLExtendedRuleForm.source_prefix := None;
          ACLExtendedRuleForm.source_ports := None;
          ACLExtendedRuleForm.destination_prefix := None;
          ACLExtendedRuleForm.destination_ports := None;
          ACLExtendedRuleForm.protocol := Some "tcp" |} |}.

(** ** Relating the two rule forms *)

(** The fields of an extended rule that a standard rule has too. *)
Definition to_standard (cleaned_data : ACLExtendedRuleForm.CleanedData)
    : ACLStandardRuleForm.CleanedData :=
  {| ACLStandardRuleForm.action := ACLExtendedRuleForm.action cleaned_data;
     ACLStandardRuleForm.remark := ACLExtendedRuleForm.remark cleaned_data;
     ACLStandardRuleForm.source_prefix :=
       ACLExtendedRuleForm.source_prefix cleaned_data |}.

(** An outcome with what is returned seen through [f]. *)
Definition outcome_map {A B} (f : A → B) (o : outcome A) : outcome B :=
  match o with
  | Return a => Return (f a)
  | Raise e => Raise e
  | AttributeError => AttributeError
  end.

(** ** Facts shared by the forms *)

Lemma raise_or_return_lookup {A} (error_message : gmap string (list string))
    (cleaned_data : A) (k : string) (l : list string) :
  error_message !! k = Some l →
  raise_or_return error_message cleaned_data = Raise (ErrorDict error_message).
Proof.
  intros Hk. unfold raise_or_return, truthy, dict_truthy.
  rewrite bool_decide_eq_false_2; [done|].
  intros ->. by rewrite lookup_empty in Hk.
Qed.

Lemma raise_or_return_empty {A} (cleaned_data : A) :
  raise_or_return ∅ cleaned_data = Return cleaned_data.
Proof. reflexivity. Qed.

Lemma keyed_on_lookup (error_message : gmap string (list string))
    (field msg : string) :
  error_message !! field = Some [msg] →
  keyed_on (ErrorDict error_message) field msg.
Proof. intros H. exists [msg]. split; [done|]. by apply list_elem_of_here. Qed.

(** Reading a key after [if b: error_message[k] = v]. *)
Lemma lookup_cond_insert_eq (b : bool) (k : string) (v : list string)
    (m : gmap string (list string)) :
  (if b then <[k := v]> m else m) !! k = if b then Some v else m !! k.
Proof. destruct b; [apply lookup_insert_eq|done]. Qed.

Lemma lookup_cond_insert_ne (b : bool) (k k' : string) (v : list string)
    (m : gmap string (list string)) :
  k ≠ k' → (if b then <[k := v]> m else m) !! k' = m !! k'.
Proof. intros. destruct b; [by apply lookup_insert_ne|done]. Qed.

Lemma truthy_filter_elem {A} (P : A → Prop) `{!∀ x, Decision (P x)}
    (l : list A) (x : A) :
  x ∈ l → P x → truthy (filter P l) = true.
Proof.
  intros Hx HP.
  assert (Hin : x ∈ filter P l) by (apply list_elem_of_filter; done).
  by destruct (filter P l); [inversion Hin|].
Qed.

Lemma truthy_filter_inv {A} (P : A → Prop) `{!∀ x, Decision (P x)}
    (l : list A) :
  truthy (filter P l) = true → ∃ x, x ∈ l ∧ P x.
Proof.
  destruct (filter P l) as [|x l'] eqn:E; [done|]. intros _.
  assert (Hin : x ∈ filter P l) by (rewrite E; apply list_elem_of_here).
  apply list_elem_of_filter in Hin as [? ?]. eauto.
Qed.

(** ** AccessListForm.clean *)

Module AccessListFormFacts.
Import AccessListForm.

Section facts.
Variables TYPE_STANDARD TYPE_EXTENDED : string.
Local Abbreviation clean := (clean TYPE_STANDARD TYPE_EXTENDED).

(** [clean] once the name has no error and one host is chosen. *)
Lemma clean_chosen_host (objects : list AccessList) (self : Form)
    (field : string) (host : Host) :
  truthy (errors self !! "name") = false →
  chosen_host (cleaned_data self) = Some (field, host) →
  clean objects self =
    let duplicate :=
      (bool_decide ("name" ∈ changed_data self)
       || bool_decide (field ∈ changed_data self))
      && truthy (objects_filter objects (name (cleaned_data self)) host) in
    let type_change :=
      truthy (pk (instance self))
      && ((bool_decide (type (cleaned_data self) = Some TYPE_EXTENDED)
           && truthy (aclstandardrules (instance self)))
          || (bool_decide (type (cleaned_data self) = Some TYPE_STANDARD)
              && truthy (aclextendedrules (instance self)))) in
    let error_message :=
      if duplicate
      then dict_ior ∅ (<["name" := [error_same_acl_name]]>
                         (<[field := [error_same_acl_name]]> ∅))
      else ∅ in
    raise_or_return
      (if type_change then <["type" := [error_type_change]]> error_message
       else error_message)
      (cleaned_data self).
Proof.
  intros Hname Hhost. unfold AccessListForm.clean. rewrite Hname.
  unfold chosen_host in Hhost. unfold host_type_existing_acls.
  destruct (device (cleaned_data self)) as [d|],
           (virtual_chassis (cleaned_data self)) as [vc|],
           (virtual_machine (cleaned_data self)) as [vm|];
    simplify_eq; reflexivity.
Qed.

Lemma chosen_host_field (cleaned_data : CleanedData) (field : string)
    (host : Host) :
  chosen_host cleaned_data = Some (field, host) →
  field = "device" ∨ field = "virtual_chassis" ∨ field = "virtual_machine".
Proof.
  unfold chosen_host. repeat case_match; intros; simplify_eq; auto.
Qed.

(** [clean] when no host field or more than one is set. *)
Lemma clean_not_one_host (objects : list AccessList) (self : Form) :
  truthy (errors self !! "name") = false →
  chosen_host (cleaned_data self) = None →
  clean objects self =
    Raise (Message (if hosts_set (cleaned_data self) is []
                    then error_no_host else error_too_many_hosts)).
Proof.
  intros Hname Hhost. unfold AccessListForm.clean. rewrite Hname.
  unfold chosen_host in Hhost. unfold hosts_set.
  destruct (device (cleaned_data self)) as [d|],
           (virtual_chassis (cleaned_data self)) as [vc|],
           (virtual_machine (cleaned_data self)) as [vm|];
    simplify_eq; reflexivity.
Qed.

(** C9.  When field-level validation has recorded an error on [name],
    [clean] returns [cleaned_data] at once and raises nothing: whatever
    the host fields, the stored AccessLists, the changed fields and the
    rules of the instance are, none of the later checks has a say. *)
Theorem clean_returns_on_name_error (objects : list AccessList)
    (self : Form) :
  name_error_recorded self →
  clean objects self = Return (cleaned_data self).
Proof.
  intros (l & Hl & Hne). unfold AccessListForm.clean. rewrite Hl.
  by destruct l.
Qed.

(** C1, as the code has it.  When no error is recorded on [name], exactly
    one host field is set, and [name] or that host field is among the
    changed fields, a submission whose name and host are those of a stored
    AccessList is refused, and the error dict shows the duplicate message
    under [name] and under the host field that is set. *)
Theorem clean_duplicate_name (objects : list AccessList) (self : Form)
    (field : string) (host : Host) (n : string) (a : AccessList) :
  truthy (errors self !! "name") = false →
  chosen_host (cleaned_data self) = Some (field, host) →
  name (cleaned_data self) = Some n →
  a ∈ objects → acl_name a = n → acl_assigned_object a = Some host →
  "name" ∈ changed_data self ∨ field ∈ changed_data self →
  ∃ error_message,
    clean objects self = Raise (ErrorDict error_message)
    ∧ error_message !! "name" = Some [error_same_acl_name]
    ∧ error_message !! field = Some [error_same_acl_name].
Proof.
  intros Hname Hhost Hn Ha Han Hah Hch.
  rewrite (clean_chosen_host _ _ _ _ Hname Hhost). cbv zeta.
  assert (Hdup : (bool_decide ("name" ∈ changed_data self)
                  || bool_decide (field ∈ changed_data self)) = true).
  { destruct Hch as [H|H];
      rewrite (bool_decide_eq_true_2 _ H); [done|by rewrite orb_true_r]. }
  rewrite Hdup, Hn.
  unfold objects_filter. erewrite truthy_filter_elem; [|done|by subst].
  cbn [andb]. unfold dict_ior. rewrite (right_id_L ∅ (∪)).
  assert (Hf : field ≠ "name" ∧ field ≠ "type").
  { destruct (chosen_host_field _ _ _ Hhost) as [-> | [-> | ->]]; done. }
  destruct Hf as [Hf1 Hf2].
  case_match; eexists;
    (split; [apply (raise_or_return_lookup _ _ "name" [error_same_acl_name])|]);
    simplify_map_eq; done.
Qed.

(** C2, as the code has it.  When no error is recorded on [name]: a
    submission with more than one host field set is refused with the
    one-host-at-a-time message, and a submission with none set is refused
    with the must-be-assigned message; both are messages of the form as a
    whole, keyed on no field. *)
Theorem clean_host_count (objects : list AccessList) (self : Form) :
  truthy (errors self !! "name") = false →
  (1 < length (hosts_set (cleaned_data self)) →
   clean objects self = Raise (Message error_too_many_hosts))
  ∧ (hosts_set (cleaned_data self) = [] →
     clean objects self = Raise (Message error_no_host)).
Proof.
  intros Hname. unfold AccessListForm.clean. rewrite Hname. unfold hosts_set.
  destruct (device (cleaned_data self)) as [d|],
           (virtual_chassis (cleaned_data self)) as [vc|],
           (virtual_machine (cleaned_data self)) as [vm|];
    cbn; split; intros H; first [done | lia].
Qed.

(** C6, as the code has it.  For a submission that edits a stored
    AccessList, has no error recorded on [name] and has exactly one host
    field set: the type extended is refused with the type-change message
    under [type] when standard rules exist, and the type standard is
    refused likewise when extended rules exist.  For every submission: when
    the instance has no rule of either kind, no error is raised under
    [type]. *)
Theorem clean_type_change (objects : list AccessList) (self : Form) :
  (∀ (p : positive) (field : string) (host : Host),
     truthy (errors self !! "name") = false →
     chosen_host (cleaned_data self) = Some (field, host) →
     pk (instance self) = Some p →
     (type (cleaned_data self) = Some TYPE_EXTENDED →
      aclstandardrules (instance self) ≠ [] →
      ∃ error_message,
        clean objects self = Raise (ErrorDict error_message)
        ∧ error_message !! "type" = Some [error_type_change])
     ∧ (type (cleaned_data self) = Some TYPE_STANDARD →
        aclextendedrules (instance self) ≠ [] →
        ∃ error_message,
          clean objects self = Raise (ErrorDict error_message)
          ∧ error_message !! "type" = Some [error_type_change]))
  ∧ (aclstandardrules (instance self) = [] →
     aclextendedrules (instance self) = [] →
     ∀ (e : ValidationError) (msg : string),
       clean objects self = Raise e → ¬ keyed_on e "type" msg).
Proof.
  split.
  - intros p field host Hname Hhost Hpk.
    rewrite (clean_chosen_host _ _ _ _ Hname Hhost). cbv zeta. rewrite Hpk.
    split; intros Ht Hrules; rewrite Ht.
    + destruct (aclstandardrules (instance self)); [done|].
      rewrite bool_decide_eq_true_2 by done. cbn.
      eexists; split; [eapply raise_or_return_lookup|];
        by rewrite lookup_insert_eq.
    + destruct (aclextendedrules (instance self)); [done|].
      rewrite (bool_decide_eq_true_2 (Some TYPE_STANDARD = Some TYPE_STANDARD))
        by done.
      rewrite orb_true_r. cbn.
      eexists; split; [eapply raise_or_return_lookup|];
        by rewrite lookup_insert_eq.
  - intros Hs He e msg Hclean Hkey.
    destruct (truthy (errors self !! "name")) eqn:Hname.
    { unfold AccessListForm.clean in Hclean. by rewrite Hname in Hclean. }
    destruct (chosen_host (cleaned_data self)) as [[field host]|] eqn:Hhost.
    + rewrite (clean_chosen_host _ _ _ _ Hname Hhost) in Hclean.
      cbv zeta in Hclean. rewrite Hs, He in Hclean.
      rewrite !andb_false_r in Hclean. cbn in Hclean.
      assert (Hf : field ≠ "type").
      { destruct (chosen_host_field _ _ _ Hhost) as [-> | [-> | ->]]; done. }
      unfold raise_or_return, dict_ior in Hclean.
      rewrite (right_id_L ∅ (∪)) in Hclean.
      repeat case_match; simplify_eq; destruct Hkey as (l & Hl & _);
        simplify_map_eq.
    + rewrite (clean_not_one_host _ _ Hname Hhost) in Hclean.
      by simplify_eq.
Qed.
End facts.

(** C9 at a submission whose name was refused. *)
Lemma clean_returns_on_name_error_witness :
  name_error_recorded add_bad_name
  ∧ clean "standard" "extended" [acl_edge] add_bad_name
    = Return (cleaned_data add_bad_name).
Proof.
  assert (H : name_error_recorded add_bad_name).
  { exists ["This field is required."]. split; [reflexivity|discriminate]. }
  split; [exact H|].
  exact (clean_returns_on_name_error "standard" "extended" [acl_edge]
           add_bad_name H).
Defined.

(** C1 as stated fails: "edge-in" on device 1 is stored, the submission
    carries that name and that device, and [clean] returns instead of
    raising, because neither [name] nor [device] is among the changed
    fields. *)
Lemma clean_unchanged_duplicate_returns :
  chosen_host (cleaned_data edit_edge_comments)
    = Some ("device", HostDevice device1)
  ∧ name (cleaned_data edit_edge_comments) = Some (acl_name acl_edge)
  ∧ acl_edge ∈ [acl_edge; acl_core]
  ∧ acl_assigned_object acl_edge = Some (HostDevice device1)
  ∧ clean "standard" "extended" [acl_edge; acl_core] edit_edge_comments
    = Return (cleaned_data edit_edge_comments).
Proof.
  repeat split; try reflexivity. apply list_elem_of_here.
Qed.

(** C1 at a second "edge-in" added for device 1. *)
Lemma clean_duplicate_name_witness :
  ∃ error_message,
    clean "standard" "extended" [acl_edge; acl_core] add_edge_again
      = Raise (ErrorDict error_message)
    ∧ error_message !! "name" = Some [error_same_acl_name]
    ∧ error_message !! "device" = Some [error_same_acl_name].
Proof.
  apply (clean_duplicate_name "standard" "extended" [acl_edge; acl_core]
           add_edge_again "device" (HostDevice device1) "edge-in" acl_edge);
    try reflexivity.
  - apply list_elem_of_here.
  - left. apply list_elem_of_here.
Defined.

(** C2 as stated fails: with a device and a virtual machine both set, the
    error [clean] raises is keyed on no field, so not on [device]. *)
Lemma clean_two_hosts_not_keyed :
  hosts_set (cleaned_data add_two_hosts) = ["device"; "virtual_machine"]
  ∧ clean "standard" "extended" [] add_two_hosts
    = Raise (Message error_too_many_hosts)
  ∧ ¬ (∃ e msg, clean "standard" "extended" [] add_two_hosts = Raise e
                ∧ keyed_on e "device" msg).
Proof.
  repeat split. intros (e & msg & He & Hk).
  cbv in He. injection He as <-. exact Hk.
Qed.

(** C2 at the submission with two hosts. *)
Lemma clean_host_count_witness :
  clean "standard" "extended" [] add_two_hosts
    = Raise (Message error_too_many_hosts).
Proof.
  apply (clean_host_count "standard" "extended" [] add_two_hosts).
  - reflexivity.
  - cbn. lia.
Defined.

(** C6 as stated fails: "edge-in" has a standard rule and is switched to
    extended, but with no host field set [clean] raises the
    must-be-assigned message and no error under [type]. *)
Lemma clean_no_host_hides_type_change :
  pk (instance edit_edge_to_extended_no_host) = Some 1%positive
  ∧ type (cleaned_data edit_edge_to_extended_no_host) = Some "extended"
  ∧ aclstandardrules (instance edit_edge_to_extended_no_host) ≠ []
  ∧ clean "standard" "extended" [acl_edge] edit_edge_to_extended_no_host
    = Raise (Message error_no_host)
  ∧ ¬ (∃ e msg,
         clean "standard" "extended" [acl_edge] edit_edge_to_extended_no_host
           = Raise e
         ∧ keyed_on e "type" msg).
Proof.
  repeat split; [discriminate|]. intros (e & msg & He & Hk).
  cbv in He. injection He as <-. exact Hk.
Qed.

(** C6 at "edge-in" switched to extended with its device kept. *)
Lemma clean_type_change_witness :
  ∃ error_message,
    clean "standard" "extended" [acl_edge] edit_edge_to_extended
      = Raise (ErrorDict error_message)
    ∧ error_message !! "type" = Some [error_type_change].
Proof.
  refine (proj1 (proj1 (clean_type_change "standard" "extended" [acl_edge]
                          edit_edge_to_extended)
                   1%positive "device" (HostDevice device1) _ _ _) _ _);
    try reflexivity.
  discriminate.
Defined.

End AccessListFormFacts.

(** ** ACLInterfaceAssignmentForm.clean *)

Module ACLInterfaceAssignmentFormFacts.
Import ACLInterfaceAssignmentForm.

(** With exactly one interface field set, [clean] is its [else] branch. *)
Lemma clean_chosen_interface (objects : list ACLInterfaceAssignment)
    (self : Form) (c : ChosenInterface) :
  chosen_interface (cleaned_data self) = Some c →
  clean objects self =
    clean_assigned objects (cleaned_data self) (interface_field c)
      (host_field c) (parent_host c) (object_id c) (object_type c).
Proof.
  unfold chosen_interface, clean.
  destruct (interface (cleaned_data self)), (vminterface (cleaned_data self));
    intros; by simplify_eq.
Qed.

Lemma chosen_interface_fields
    (cleaned_data : CleanedData) (c : ChosenInterface) :
  chosen_interface cleaned_data = Some c →
  (interface_field c = "interface" ∧ host_field c = "device")
  ∨ (interface_field c = "vminterface" ∧ host_field c = "virtual_machine").
Proof.
  unfold chosen_interface.
  destruct (interface cleaned_data), (vminterface cleaned_data);
    intros; simplify_eq; auto.
Qed.

(** A stored assignment on the interface in the submitted direction makes
    the third query of [clean] non-empty. *)
Lemma objects_filter_exists (objects : list ACLInterfaceAssignment)
    (cleaned_data : CleanedData) (c : ChosenInterface)
    (r : ACLInterfaceAssignment) :
  r ∈ objects → same_interface_direction cleaned_data c r →
  truthy (objects_filter objects (object_id c) (object_type c)
            (direction cleaned_data)) = true.
Proof.
  intros Hr H. unfold objects_filter.
  by apply (truthy_filter_elem _ _ r).
Qed.

(** One for the same AccessList makes the second query non-empty too. *)
Lemma objects_filter_access_list_exists
    (objects : list ACLInterfaceAssignment) (cleaned_data : CleanedData)
    (c : ChosenInterface) (a : AccessList) (r : ACLInterfaceAssignment) :
  r ∈ objects → assignment_access_list r = acl_pk a →
  same_interface_direction cleaned_data c r →
  truthy (objects_filter_access_list objects a (object_id c) (object_type c)
            (direction cleaned_data)) = true.
Proof.
  intros Hr Ha H. unfold objects_filter_access_list.
  by apply (truthy_filter_elem _ _ r).
Qed.

(** What [clean] raises once an assignment on the interface in the
    submitted direction is stored: the last check writes its message under
    [direction] and under the interface field, over whatever was there. *)
Lemma clean_one_per_direction (objects : list ACLInterfaceAssignment)
    (self : Form) (c : ChosenInterface) (a : AccessList)
    (r : ACLInterfaceAssignment) :
  chosen_interface (cleaned_data self) = Some c →
  access_list (cleaned_data self) = Some a →
  r ∈ objects → same_interface_direction (cleaned_data self) c r →
  ∃ error_message,
    clean objects self = Raise (ErrorDict error_message)
    ∧ error_message !! "direction" = Some [error_interface_already_assigned]
    ∧ error_message !! interface_field c
      = Some [error_interface_already_assigned]
    ∧ (truthy (objects_filter_access_list objects a (object_id c)
                 (object_type c) (direction (cleaned_data self))) = true →
       error_message !! "access_list" = Some [error_duplicate_entry]).
Proof.
  intros Hc Ha Hr Hsame. rewrite (clean_chosen_interface _ _ _ Hc).
  unfold clean_assigned. rewrite Ha.
  rewrite (objects_filter_exists _ _ _ _ Hr Hsame). unfold dict_ior.
  destruct (chosen_interface_fields _ _ Hc) as [[-> ->] | [-> ->]];
    repeat case_match; eexists;
    (split;
     [apply (raise_or_return_lookup _ _ "direction"
               [error_interface_already_assigned])|]);
    repeat split; intros; simplify_map_eq; done.
Qed.

(** With exactly one interface field set and no AccessList in
    [cleaned_data], [clean] stops at [access_list.pk]. *)
Lemma clean_no_access_list (objects : list ACLInterfaceAssignment)
    (self : Form) (c : ChosenInterface) :
  chosen_interface (cleaned_data self) = Some c →
  access_list (cleaned_data self) = None →
  clean objects self = AttributeError.
Proof.
  intros Hc Ha. rewrite (clean_chosen_interface _ _ _ Hc).
  unfold clean_assigned. by rewrite Ha.
Qed.

(** What [clean] raises when the interface's parent host is not the host
    of the chosen AccessList: the message always stays under the host
    field; it stays under [access_list] unless the duplicate check fires,
    and under the interface field unless the per-direction check fires. *)
Lemma clean_not_on_host (objects : list ACLInterfaceAssignment)
    (self : Form) (c : ChosenInterface) (a : AccessList) :
  chosen_interface (cleaned_data self) = Some c →
  access_list (cleaned_data self) = Some a →
  acl_assigned_object a ≠ Some (parent_host c) →
  ∃ error_message,
    clean objects self = Raise (ErrorDict error_message)
    ∧ error_message !! host_field c = Some [error_acl_not_assigned_to_host]
    ∧ (truthy (objects_filter_access_list objects a (object_id c)
                 (object_type c) (direction (cleaned_data self))) = false →
       error_message !! "access_list"
         = Some [error_acl_not_assigned_to_host])
    ∧ (truthy (objects_filter objects (object_id c) (object_type c)
                 (direction (cleaned_data self))) = false →
       error_message !! interface_field c
         = Some [error_acl_not_assigned_to_host]).
Proof.
  intros Hc Ha Hhost. rewrite (clean_chosen_interface _ _ _ Hc).
  unfold clean_assigned. rewrite Ha.
  rewrite (bool_decide_eq_true_2 _ Hhost). unfold dict_ior.
  assert (Hsub :
    truthy (objects_filter objects (object_id c) (object_type c)
              (direction (cleaned_data self))) = false →
    truthy (objects_filter_access_list objects a (object_id c)
              (object_type c) (direction (cleaned_data self))) = false).
  { intros Hnone. apply not_true_is_false. intros Hsome.
    apply truthy_filter_inv in Hsome as (r & Hr & _ & Hsame).
    unfold objects_filter in Hnone.
    by rewrite (truthy_filter_elem _ _ r Hr Hsame) in Hnone. }
  destruct (truthy (objects_filter_access_list _ _ _ _ _)) eqn:Hdup,
           (truthy (objects_filter _ _ _ _)) eqn:Hone;
    try (by specialize (Hsub eq_refl));
    destruct (chosen_interface_fields _ _ Hc) as [[-> ->] | [-> ->]];
    eexists;
    (split;
     [eapply (raise_or_return_lookup _ _ "access_list"); reflexivity|]);
    repeat split; intros; simplify_map_eq; done.
Qed.

(** C10.  A submission with exactly one interface field set whose
    AccessList, interface and direction are those of a stored assignment is
    refused, and the error dict holds both messages: the duplicate-entry
    message under [access_list], and the one-per-direction message under
    [direction] and under the interface field, since the per-direction
    query does not leave out the assignments of the same AccessList. *)
Theorem clean_exact_duplicate (objects : list ACLInterfaceAssignment)
    (self : Form) (c : ChosenInterface) (a : AccessList)
    (r : ACLInterfaceAssignment) :
  chosen_interface (cleaned_data self) = Some c →
  access_list (cleaned_data self) = Some a →
  r ∈ objects → assignment_access_list r = acl_pk a →
  same_interface_direction (cleaned_data self) c r →
  ∃ error_message,
    clean objects self = Raise (ErrorDict error_message)
    ∧ error_message !! "access_list" = Some [error_duplicate_entry]
    ∧ error_message !! "direction" = Some [error_interface_already_assigned]
    ∧ error_message !! interface_field c
      = Some [error_interface_already_assigned].
Proof.
  intros Hc Ha Hr Hacl Hsame.
  destruct (clean_one_per_direction _ _ _ _ _ Hc Ha Hr Hsame)
    as (m & Hm & Hd & Hi & Hdup).
  exists m. repeat split; try done.
  apply Hdup. by apply (objects_filter_access_list_exists _ _ _ _ r).
Qed.

(** C7.  Whatever else is submitted, [clean] refuses a submission with
    both [interface] and [vminterface] set, and one with neither set, and
    the error dict shows the message under both fields. *)
Theorem clean_interface_choice (objects : list ACLInterfaceAssignment)
    (self : Form) :
  (is_Some (interface (cleaned_data self)) →
   is_Some (vminterface (cleaned_data self)) →
   ∃ error_message,
     clean objects self = Raise (ErrorDict error_message)
     ∧ error_message !! "interface" = Some [error_too_many_interfaces]
     ∧ error_message !! "vminterface" = Some [error_too_many_interfaces])
  ∧ (interface (cleaned_data self) = None →
     vminterface (cleaned_data self) = None →
     ∃ error_message,
       clean objects self = Raise (ErrorDict error_message)
       ∧ error_message !! "interface" = Some [error_no_interface]
       ∧ error_message !! "vminterface" = Some [error_no_interface]).
Proof.
  unfold clean. split.
  - intros [i ->] [v ->]. eexists. repeat split.
  - intros -> ->. eexists. repeat split.
Qed.

(** C7 at "edge-in" submitted with both kinds of interface. *)
Lemma clean_interface_choice_witness :
  ∃ error_message,
    clean [edge_on_eth0] assign_edge_to_both = Raise (ErrorDict error_message)
    ∧ error_message !! "interface" = Some [error_too_many_interfaces]
    ∧ error_message !! "vminterface" = Some [error_too_many_interfaces].
Proof.
  apply (proj1 (clean_interface_choice [edge_on_eth0] assign_edge_to_both));
    eexists; reflexivity.
Defined.

(** C10 at "edge-in" submitted for eth0, inbound, a second time. *)
Lemma clean_exact_duplicate_witness :
  ∃ error_message,
    clean [edge_on_eth0] assign_edge_to_eth0 = Raise (ErrorDict error_message)
    ∧ error_message !! "access_list" = Some [error_duplicate_entry]
    ∧ error_message !! "direction" = Some [error_interface_already_assigned]
    ∧ error_message !! "interface" = Some [error_interface_already_assigned].
Proof.
  apply (clean_exact_duplicate [edge_on_eth0] assign_edge_to_eth0 eth0_chosen
           acl_edge edge_on_eth0); try reflexivity.
  - apply list_elem_of_here.
  - repeat split.
Defined.

(** C3 at the input where the code leaves it: eth0 carries "edge-in"
    inbound, the submission is for eth0 inbound with the required Access
    List left empty, and [clean] raises no validation error at all: it
    fails on [access_list.pk]. *)
Theorem clean_one_per_direction_needs_access_list :
  chosen_interface (cleaned_data assign_nothing_to_eth0) = Some eth0_chosen
  ∧ edge_on_eth0 ∈ [edge_on_eth0]
  ∧ same_interface_direction (cleaned_data assign_nothing_to_eth0)
      eth0_chosen edge_on_eth0
  ∧ clean [edge_on_eth0] assign_nothing_to_eth0 = AttributeError.
Proof.
  repeat split. apply list_elem_of_here.
Qed.

(** C5 at the input where the code leaves it: "core-in" lives on device 2,
    eth0 belongs to device 1 and already carries "edge-in" inbound.  The
    not-present message is written under [access_list], [interface] and
    [device], and the per-direction check then writes its own message over
    the one under [interface]. *)
Theorem clean_not_on_host_overwritten :
  acl_assigned_object acl_core ≠ Some (parent_host eth0_chosen)
  ∧ ∃ error_message,
      clean [edge_on_eth0] assign_core_to_eth0
        = Raise (ErrorDict error_message)
      ∧ error_message !! "access_list"
        = Some [error_acl_not_assigned_to_host]
      ∧ error_message !! "device" = Some [error_acl_not_assigned_to_host]
      ∧ error_message !! "interface"
        = Some [error_interface_already_assigned]
      ∧ ¬ keyed_on (ErrorDict error_message) "interface"
            error_acl_not_assigned_to_host.
Proof.
  split; [discriminate|]. eexists. split; [reflexivity|].
  repeat split. intros (l & Hl & Hin).
  vm_compute in Hl. injection Hl as <-.
  apply list_elem_of_singleton in Hin. discriminate.
Qed.

End ACLInterfaceAssignmentFormFacts.

(** ** The rule forms' clean *)

Section rule_forms.
Variables ERROR_MESSAGE_NO_REMARK
          ERROR_MESSAGE_ACTION_REMARK_SOURCE_PREFIX_SET
          ERROR_MESSAGE_REMARK_WITHOUT_ACTION_REMARK : string.

Local Abbreviation standard_clean :=
  (ACLStandardRuleForm.clean ERROR_MESSAGE_NO_REMARK
     ERROR_MESSAGE_ACTION_REMARK_SOURCE_PREFIX_SET
     ERROR_MESSAGE_REMARK_WITHOUT_ACTION_REMARK).
Local Abbreviation extended_clean :=
  (ACLExtendedRuleForm.clean ERROR_MESSAGE_NO_REMARK
     ERROR_MESSAGE_ACTION_REMARK_SOURCE_PREFIX_SET
     ERROR_MESSAGE_REMARK_WITHOUT_ACTION_REMARK).

(** The dict [_extracted_from_clean_20] leaves, key by key. *)
Lemma extracted_from_clean_20_lookup
    (cleaned_data : ACLExtendedRuleForm.CleanedData) :
  let error_message :=
    ACLExtendedRuleForm._extracted_from_clean_20 ERROR_MESSAGE_NO_REMARK
      ERROR_MESSAGE_ACTION_REMARK_SOURCE_PREFIX_SET cleaned_data ∅ in
  error_message !! "remark"
    = (if truthy (ACLExtendedRuleForm.remark cleaned_data) then None
       else Some [ERROR_MESSAGE_NO_REMARK])
  ∧ error_message !! "source_prefix"
    = (if truthy (ACLExtendedRuleForm.source_prefix cleaned_data)
       then Some [ERROR_MESSAGE_ACTION_REMARK_SOURCE_PREFIX_SET] else None)
  ∧ error_message !! "source_ports"
    = (if truthy (ACLExtendedRuleForm.source_ports cleaned_data)
       then Some ["Action is set to remark, Source Ports CANNOT be set."]
       else None)
  ∧ error_message !! "destination_prefix"
    = (if truthy (ACLExtendedRuleForm.destination_prefix cleaned_data)
       then Some
              ["Action is set to remark, Destination Prefix CANNOT be set."]
       else None)
  ∧ error_message !! "destination_ports"
    = (if truthy (ACLExtendedRuleForm.destination_ports cleaned_data)
       then Some
              ["Action is set to remark, Destination Ports CANNOT be set."]
       else None)
  ∧ error_message !! "protocol"
    = (if truthy (ACLExtendedRuleForm.protocol cleaned_data)
       then Some ["Action is set to remark, Protocol CANNOT be set."]
       else None).
Proof.
  unfold ACLExtendedRuleForm._extracted_from_clean_20. cbv zeta.
  repeat split;
    rewrite ?lookup_cond_insert_ne by done;
    rewrite lookup_cond_insert_eq;
    rewrite ?lookup_cond_insert_ne by done;
    rewrite lookup_empty; by destruct (truthy _).
Qed.

(** [clean] of the extended form when the action is "remark". *)
Lemma extended_clean_remark (self : ACLExtendedRuleForm.Form) :
  ACLExtendedRuleForm.action (ACLExtendedRuleForm.cleaned_data self)
    = Some "remark" →
  extended_clean self =
    raise_or_return
      (ACLExtendedRuleForm._extracted_from_clean_20 ERROR_MESSAGE_NO_REMARK
         ERROR_MESSAGE_ACTION_REMARK_SOURCE_PREFIX_SET
         (ACLExtendedRuleForm.cleaned_data self) ∅)
      (ACLExtendedRuleForm.cleaned_data self).
Proof.
  intros Ha. unfold ACLExtendedRuleForm.clean.
  by rewrite (bool_decide_eq_true_2 _ Ha).
Qed.

(** C4.  Both rule forms: with action "remark" and an empty remark,
    [clean] raises the no-remark message under [remark]; with action
    "remark" and a match field set (the source prefix of a standard rule;
    the source prefix, source ports, destination prefix, destination ports
    or protocol of an extended rule), it raises that field's cannot-be-set
    message under that field; with a remark and an action other than
    "remark", it raises the remark-without-action message under
    [remark]. *)
Theorem rule_forms_remark_checks :
  (∀ self : ACLStandardRuleForm.Form,
     (ACLStandardRuleForm.action (ACLStandardRuleForm.cleaned_data self)
        = Some "remark" →
      (truthy (ACLStandardRuleForm.remark
                 (ACLStandardRuleForm.cleaned_data self)) = false →
       ∃ error_message,
         standard_clean self = Raise (ErrorDict error_message)
         ∧ error_message !! "remark" = Some [ERROR_MESSAGE_NO_REMARK])
      ∧ (truthy (ACLStandardRuleForm.source_prefix
                   (ACLStandardRuleForm.cleaned_data self)) = true →
         ∃ error_message,
           standard_clean self = Raise (ErrorDict error_message)
           ∧ error_message !! "source_prefix"
             = Some [ERROR_MESSAGE_ACTION_REMARK_SOURCE_PREFIX_SET]))
     ∧ (ACLStandardRuleForm.action (ACLStandardRuleForm.cleaned_data self)
          ≠ Some "remark" →
        truthy (ACLStandardRuleForm.remark
                  (ACLStandardRuleForm.cleaned_data self)) = true →
        ∃ error_message,
          standard_clean self = Raise (ErrorDict error_message)
          ∧ error_message !! "remark"
            = Some [ERROR_MESSAGE_REMARK_WITHOUT_ACTION_REMARK]))
  ∧ (∀ self : ACLExtendedRuleForm.Form,
       (ACLExtendedRuleForm.action (ACLExtendedRuleForm.cleaned_data self)
          = Some "remark" →
        (truthy (ACLExtendedRuleForm.remark
                   (ACLExtendedRuleForm.cleaned_data self)) = false →
         ∃ error_message,
           extended_clean self = Raise (ErrorDict error_message)
           ∧ error_message !! "remark" = Some [ERROR_MESSAGE_NO_REMARK])
        ∧ (truthy (ACLExtendedRuleForm.source_prefix
                     (ACLExtendedRuleForm.cleaned_data self)) = true →
           ∃ error_message,
             extended_clean self = Raise (ErrorDict error_message)
             ∧ error_message !! "source_prefix"
               = Some [ERROR_MESSAGE_ACTION_REMARK_SOURCE_PREFIX_SET])
        ∧ (truthy (ACLExtendedRuleForm.source_ports
                     (ACLExtendedRuleForm.cleaned_data self)) = true →
           ∃ error_message,
             extended_clean self = Raise (ErrorDict error_message)
             ∧ error_message !! "source_ports"
               = Some
                   ["Action is set to remark, Source Ports CANNOT be set."])
        ∧ (truthy (ACLExtendedRuleForm.destination_prefix
                     (ACLExtendedRuleForm.cleaned_data self)) = true →
           ∃ error_message,
             extended_clean self = Raise (ErrorDict error_message)
             ∧ error_message !! "destination_prefix"
               = Some
                   ["Action is set to remark, Destination Prefix CANNOT be set."])
        ∧ (truthy (ACLExtendedRuleForm.destination_ports
                     (ACLExtendedRuleForm.cleaned_data self)) = true →
           ∃ error_message,
             extended_clean self = Raise (ErrorDict error_message)
             ∧ error_message !! "destination_ports"
               = Some
                   ["Action is set to remark, Destination Ports CANNOT be set."])
        ∧ (truthy (ACLExtendedRuleForm.protocol
                     (ACLExtendedRuleForm.cleaned_data self)) = true →
           ∃ error_message,
             extended_clean self = Raise (ErrorDict error_message)
             ∧ error_message !! "protocol"
               = Some ["Action is set to remark, Protocol CANNOT be set."]))
       ∧ (ACLExtendedRuleForm.action (ACLExtendedRuleForm.cleaned_data self)
            ≠ Some "remark" →
          truthy (ACLExtendedRuleForm.remark
                    (ACLExtendedRuleForm.cleaned_data self)) = true →
          ∃ error_message,
            extended_clean self = Raise (ErrorDict error_message)
            ∧ error_message !! "remark"
              = Some [ERROR_MESSAGE_REMARK_WITHOUT_ACTION_REMARK])).
Proof.
  split; intros self; split.
  - intros Ha. unfold ACLStandardRuleForm.clean.
    rewrite (bool_decide_eq_true_2 _ Ha).
    split; intros ->;
      [destruct (truthy (ACLStandardRuleForm.source_prefix _))
      |destruct (truthy (ACLStandardRuleForm.remark _))];
      eexists; split; reflexivity.
  - intros Ha Hr. unfold ACLStandardRuleForm.clean.
    rewrite (bool_decide_eq_false_2 _ Ha), Hr. eexists. split; reflexivity.
  - intros Ha. rewrite (extended_clean_remark _ Ha).
    destruct (extracted_from_clean_20_lookup
                (ACLExtendedRuleForm.cleaned_data self))
      as (H1 & H2 & H3 & H4 & H5 & H6).
    repeat split; intros Ht; eexists;
      (split; [eapply raise_or_return_lookup|]);
      first [ by rewrite H1, Ht | by rewrite H2, Ht | by rewrite H3, Ht
            | by rewrite H4, Ht | by rewrite H5, Ht | by rewrite H6, Ht ].
  - intros Ha Hr. unfold ACLExtendedRuleForm.clean.
    rewrite (bool_decide_eq_false_2 _ Ha), Hr. eexists. split; reflexivity.
Qed.
End rule_forms.

(** C4 at the two submissions the specification gives as examples. *)
Lemma rule_forms_remark_checks_witness :
  (∃ error_message,
     ACLStandardRuleForm.clean "no remark" "source prefix set"
       "remark without action" remark_with_prefix
       = Raise (ErrorDict error_message)
     ∧ error_message !! "source_prefix" = Some ["source prefix set"])
  ∧ (∃ error_message,
       ACLExtendedRuleForm.clean "no remark" "source prefix set"
         "remark without action" permit_with_remark
         = Raise (ErrorDict error_message)
       ∧ error_message !! "remark" = Some ["remark without action"]).
Proof.
  split.
  - apply (proj1 (rule_forms_remark_checks "no remark" "source prefix set"
                    "remark without action") remark_with_prefix);
      reflexivity.
  - apply (proj2 (rule_forms_remark_checks "no remark" "source prefix set"
                    "remark without action") permit_with_remark);
      [discriminate|reflexivity].
Defined.

(** ** save *)

(** Exactly one host field is set when [chosen_host] names it. *)
Lemma chosen_host_one (cleaned_data : AccessListForm.CleanedData) :
  is_Some (chosen_host cleaned_data) ↔ length (hosts_set cleaned_data) = 1.
Proof.
  unfold chosen_host, hosts_set.
  destruct (AccessListForm.device cleaned_data),
           (AccessListForm.virtual_chassis cleaned_data),
           (AccessListForm.virtual_machine cleaned_data); cbn;
    split; intros H; first [done | by eexists | by destruct H].
Qed.

(** C8.  When exactly one host field of an AccessList submission is set,
    [save] leaves that host in the instance's [assigned_object]; when
    exactly one interface field of an assignment submission is set, [save]
    leaves that interface there. *)
Theorem save_sets_assigned_object :
  (∀ (self : AccessListForm.Form) (field : string) (host : Host),
     chosen_host (AccessListForm.cleaned_data self) = Some (field, host) →
     AccessListForm.assigned_object (AccessListForm.save self) = Some host)
  ∧ (∀ (self : ACLInterfaceAssignmentForm.Form) (c : ChosenInterface),
       chosen_interface (ACLInterfaceAssignmentForm.cleaned_data self)
         = Some c →
       ACLInterfaceAssignmentForm.assigned_object
         (ACLInterfaceAssignmentForm.save self) = Some (object_row c)).
Proof.
  split.
  - intros self field host. unfold chosen_host, AccessListForm.save. cbn.
    destruct (AccessListForm.device _), (AccessListForm.virtual_chassis _),
             (AccessListForm.virtual_machine _); intros; by simplify_eq.
  - intros self c. unfold chosen_interface, ACLInterfaceAssignmentForm.save.
    cbn.
    destruct (ACLInterfaceAssignmentForm.interface _),
             (ACLInterfaceAssignmentForm.vminterface _);
      intros; by simplify_eq.
Qed.

(** C8 at "edge-in" for device 1 and at "edge-in" for eth0. *)
Lemma save_sets_assigned_object_witness :
  AccessListForm.assigned_object (AccessListForm.save add_edge_again)
    = Some (HostDevice device1)
  ∧ ACLInterfaceAssignmentForm.assigned_object
      (ACLInterfaceAssignmentForm.save assign_edge_to_eth0)
    = Some (OfInterface eth0).
Proof.
  split.
  - apply (proj1 save_sets_assigned_object add_edge_again "device").
    reflexivity.
  - apply (proj2 save_sets_assigned_object assign_edge_to_eth0 eth0_chosen).
    reflexivity.
Defined.

(** ** More on what the forms accept and what they raise *)

Lemma raise_or_return_Return {A} (error_message : gmap string (list string))
    (cleaned_data x : A) :
  raise_or_return error_message cleaned_data = Return x ↔
  error_message = ∅ ∧ x = cleaned_data.
Proof.
  unfold raise_or_return, truthy, dict_truthy. case_bool_decide; cbn.
  - split; [intros [= ->]; done|intros [_ ->]; done].
  - split; [done|intros [? _]; done].
Qed.

Lemma raise_or_return_Raise {A} (error_message : gmap string (list string))
    (cleaned_data : A) (e : ValidationError) :
  raise_or_return error_message cleaned_data = Raise e →
  e = ErrorDict error_message.
Proof.
  unfold raise_or_return. destruct (truthy error_message); by intros [= <-].
Qed.

Lemma raise_or_return_not_AttributeError {A}
    (error_message : gmap string (list string)) (cleaned_data : A) :
  raise_or_return error_message cleaned_data ≠ AttributeError.
Proof. unfold raise_or_return. by destruct (truthy error_message). Qed.

Lemma truthy_list_false {A} (l : list A) : truthy l = false ↔ l = [].
Proof. by destruct l. Qed.

Lemma truthy_filter_false {A} (P : A → Prop) `{!∀ x, Decision (P x)}
    (l : list A) :
  truthy (filter P l) = false ↔ ∀ x, x ∈ l → ¬ P x.
Proof.
  rewrite truthy_list_false. split.
  - intros Hnil x Hx HP. by apply (filter_nil_not_elem_of P l x).
  - intros Hall. destruct (filter P l) as [|x l'] eqn:E; [done|].
    assert (Hin : x ∈ filter P l) by (rewrite E; apply list_elem_of_here).
    apply list_elem_of_filter in Hin as [HP Hx]. by destruct (Hall x Hx).
Qed.

Module AccessListFormBehaviour.
Import AccessListForm.

Section behaviour.
Variables TYPE_STANDARD TYPE_EXTENDED : string.
Local Abbreviation clean := (clean TYPE_STANDARD TYPE_EXTENDED).

(** The two conditions of [clean] past the host checks, as propositions. *)
Lemma duplicate_check_false (objects : list AccessList) (self : Form)
    (field : string) (host : Host) :
  (bool_decide ("name" ∈ changed_data self)
   || bool_decide (field ∈ changed_data self))
  && truthy (objects_filter objects (name (cleaned_data self)) host) = false
  ↔ ("name" ∈ changed_data self ∨ field ∈ changed_data self →
     objects_filter objects (name (cleaned_data self)) host = []).
Proof.
  rewrite andb_false_iff, orb_false_iff, !bool_decide_eq_false,
    truthy_list_false.
  split.
  - intros [[H1 H2]|H3] [H4|H4]; done.
  - intros H.
    destruct (decide ("name" ∈ changed_data self)); [by right; apply H; left|].
    destruct (decide (field ∈ changed_data self)); [by right; apply H; right|].
    by left.
Qed.

Lemma type_check_false (self : Form) :
  truthy (pk (instance self))
  && ((bool_decide (type (cleaned_data self) = Some TYPE_EXTENDED)
       && truthy (aclstandardrules (instance self)))
      || (bool_decide (type (cleaned_data self) = Some TYPE_STANDARD)
          && truthy (aclextendedrules (instance self)))) = false
  ↔ (is_Some (pk (instance self)) →
     (type (cleaned_data self) = Some TYPE_EXTENDED →
      aclstandardrules (instance self) = [])
     ∧ (type (cleaned_data self) = Some TYPE_STANDARD →
        aclextendedrules (instance self) = [])).
Proof.
  rewrite andb_false_iff, orb_false_iff, !andb_false_iff,
    !bool_decide_eq_false, !truthy_list_false.
  destruct (pk (instance self)) as [p|]; cbn.
  - split.
    + intros [?|[[?|?] [?|?]]] _; done.
    + intros H. right. destruct (H (mk_is_Some _ _ eq_refl)) as [H1 H2].
      split.
      * destruct (decide (type (cleaned_data self) = Some TYPE_EXTENDED));
          [right; auto|by left].
      * destruct (decide (type (cleaned_data self) = Some TYPE_STANDARD));
          [right; auto|by left].
  - split; [by intros _ [? ?]|by left].
Qed.

(** When [clean] returns on a submission with no error on [name], exactly
    one host field is set and both checks stayed silent. *)
Lemma clean_Return_inv (objects : list AccessList) (self : Form)
    (x : CleanedData) :
  truthy (errors self !! "name") = false →
  clean objects self = Return x →
  ∃ field host,
    chosen_host (cleaned_data self) = Some (field, host)
    ∧ ("name" ∈ changed_data self ∨ field ∈ changed_data self →
       objects_filter objects (name (cleaned_data self)) host = [])
    ∧ (is_Some (pk (instance self)) →
       (type (cleaned_data self) = Some TYPE_EXTENDED →
        aclstandardrules (instance self) = [])
       ∧ (type (cleaned_data self) = Some TYPE_STANDARD →
          aclextendedrules (instance self) = [])).
Proof.
  intros Hname Hclean.
  destruct (chosen_host (cleaned_data self)) as [[field host]|] eqn:Hhost.
  - exists field, host. split; [done|].
    rewrite (AccessListFormFacts.clean_chosen_host _ _ _ _ _ _ Hname Hhost)
      in Hclean.
    cbv zeta in Hclean. apply raise_or_return_Return in Hclean as [Hm _].
    rewrite <- duplicate_check_false, <- type_check_false.
    destruct (truthy (pk (instance self)) && _) eqn:Ht.
    { by apply insert_non_empty in Hm. }
    split; [|done].
    destruct ((bool_decide _ || bool_decide _) && _) eqn:Hd; [|done].
    unfold dict_ior in Hm. rewrite (right_id_L ∅ (∪)) in Hm.
    by apply insert_non_empty in Hm.
  - by rewrite (AccessListFormFacts.clean_not_one_host _ _ _ _ Hname Hhost)
      in Hclean.
Qed.

(** X1.  [clean] returns the cleaned data exactly when an error is already
    recorded on [name], or exactly one host field is set and both later
    checks stay silent: no stored AccessList has the submitted name on that
    host unless neither [name] nor the host field changed, and an edited
    AccessList has no rule of the kind the submitted type excludes. *)
Theorem clean_returns_iff (objects : list AccessList) (self : Form) :
  clean objects self = Return (cleaned_data self) ↔
  truthy (errors self !! "name") = true
  ∨ ∃ field host,
      chosen_host (cleaned_data self) = Some (field, host)
      ∧ ("name" ∈ changed_data self ∨ field ∈ changed_data self →
         objects_filter objects (name (cleaned_data self)) host = [])
      ∧ (is_Some (pk (instance self)) →
         (type (cleaned_data self) = Some TYPE_EXTENDED →
          aclstandardrules (instance self) = [])
         ∧ (type (cleaned_data self) = Some TYPE_STANDARD →
            aclextendedrules (instance self) = [])).
Proof.
  destruct (truthy (errors self !! "name")) eqn:Hname.
  { split; [by left|]. intros _. unfold AccessListForm.clean.
    by rewrite Hname. }
  split.
  - intros Hclean. right. by eapply clean_Return_inv.
  - intros [?|(field & host & Hhost & Hdup & Htype)]; [done|].
    rewrite (AccessListFormFacts.clean_chosen_host _ _ _ _ _ _ Hname Hhost).
    cbv zeta. apply duplicate_check_false in Hdup.
    apply type_check_false in Htype. by rewrite Hdup, Htype.
Qed.

(** X2.  Whenever [clean] raises an error dict, exactly one host field is
    set; the duplicate message is under [name] and under that host field
    together or under neither; [type] holds nothing or the type-change
    message; and no other key is in the dict. *)
Theorem clean_error_dict_shape (objects : list AccessList) (self : Form)
    (error_message : gmap string (list string)) :
  clean objects self = Raise (ErrorDict error_message) →
  ∃ field host,
    chosen_host (cleaned_data self) = Some (field, host)
    ∧ error_message !! field = error_message !! "name"
    ∧ (error_message !! "name" = None
       ∨ error_message !! "name" = Some [error_same_acl_name])
    ∧ (error_message !! "type" = None
       ∨ error_message !! "type" = Some [error_type_change])
    ∧ (∀ k, k ≠ "name" → k ≠ field → k ≠ "type" →
            error_message !! k = None).
Proof.
  intros Hclean.
  destruct (truthy (errors self !! "name")) eqn:Hname.
  { unfold AccessListForm.clean in Hclean. by rewrite Hname in Hclean. }
  destruct (chosen_host (cleaned_data self)) as [[field host]|] eqn:Hhost.
  - exists field, host. split; [done|].
    rewrite (AccessListFormFacts.clean_chosen_host _ _ _ _ _ _ Hname Hhost)
      in Hclean.
    cbv zeta in Hclean. apply raise_or_return_Raise in Hclean as [= ->].
    unfold dict_ior. rewrite (right_id_L ∅ (∪)).
    assert (Hf : field ≠ "name" ∧ field ≠ "type").
    { destruct (AccessListFormFacts.chosen_host_field _ _ _ Hhost)
        as [-> | [-> | ->]]; done. }
    destruct Hf as [Hf1 Hf2].
    destruct (truthy (pk (instance self)) && _),
             ((bool_decide _ || bool_decide _) && _);
      repeat split; intros; simplify_map_eq; auto.
  - by rewrite (AccessListFormFacts.clean_not_one_host _ _ _ _ Hname Hhost)
      in Hclean.
Qed.

(** X3.  A stored AccessList with another name, or on another host than
    the one submitted, has no say: with or without it in the table, [clean]
    does the same. *)
Theorem clean_ignores_unrelated_rows (objects1 objects2 : list AccessList)
    (a : AccessList) (self : Form) :
  (Some (acl_name a) ≠ name (cleaned_data self)
   ∨ ∀ field host, chosen_host (cleaned_data self) = Some (field, host) →
                   acl_assigned_object a ≠ Some host) →
  clean (objects1 ++ a :: objects2) self = clean (objects1 ++ objects2) self.
Proof.
  intros Hrow.
  destruct (truthy (errors self !! "name")) eqn:Hname.
  { unfold AccessListForm.clean. by rewrite Hname. }
  destruct (chosen_host (cleaned_data self)) as [[field host]|] eqn:Hhost.
  - rewrite !(AccessListFormFacts.clean_chosen_host _ _ _ _ _ _ Hname Hhost).
    cbv zeta.
    assert (Hf : objects_filter (objects1 ++ a :: objects2)
                   (name (cleaned_data self)) host
                 = objects_filter (objects1 ++ objects2)
                     (name (cleaned_data self)) host).
    { unfold objects_filter. rewrite !filter_app, filter_cons.
      rewrite decide_False; [done|].
      intros [Hn Hh]. destruct Hrow as [Hrow|Hrow]; [done|].
      by apply (Hrow field host). }
    by rewrite Hf.
  - by rewrite !(AccessListFormFacts.clean_not_one_host _ _ _ _ Hname Hhost).
Qed.

(** X4.  A submission that [clean] lets through with no error on [name]
    always gets a host on [save]: the one host field that is set. *)
Theorem clean_then_save_assigns_host (objects : list AccessList)
    (self : Form) :
  truthy (errors self !! "name") = false →
  clean objects self = Return (cleaned_data self) →
  ∃ field host,
    chosen_host (cleaned_data self) = Some (field, host)
    ∧ assigned_object (save self) = Some host.
Proof.
  intros Hname Hclean.
  destruct (clean_Return_inv _ _ _ Hname Hclean)
    as (field & host & Hhost & _).
  exists field, host. split; [done|].
  unfold chosen_host in Hhost. unfold save. cbn.
  destruct (device _), (virtual_chassis _), (virtual_machine _);
    by simplify_eq.
Qed.
End behaviour.

(** X5.  Opening the form on what [save] left pre-fills, under the host
    field that was set, the host that was submitted, and leaves every other
    key of the caller's [initial] as it was given. *)
Theorem init_after_save (self : Form) (field : string) (host : Host)
    (initial : gmap string InitialValue) :
  chosen_host (cleaned_data self) = Some (field, host) →
  __init__ (Some (save self)) (Some initial) !! field
    = Some (InitialHost host)
  ∧ ∀ k, k ≠ field →
         __init__ (Some (save self)) (Some initial) !! k = initial !! k.
Proof.
  unfold chosen_host, __init__, save. cbn.
  destruct (device _), (virtual_chassis _), (virtual_machine _);
    intros; simplify_eq; cbn; split; intros; by simplify_map_eq.
Qed.

(** X1 at "edge-in" edited with only its comments changed. *)
Lemma clean_returns_iff_witness :
  clean "standard" "extended" [acl_edge; acl_core] edit_edge_comments
    = Return (cleaned_data edit_edge_comments).
Proof.
  apply (clean_returns_iff "standard" "extended"). right.
  exists "device", (HostDevice device1). split; [reflexivity|]. split.
  - intros [H|H]; apply list_elem_of_singleton in H; discriminate.
  - intros _. split; [discriminate|reflexivity].
Defined.

(** X2 at a second "edge-in" added for device 1. *)
Lemma clean_error_dict_shape_witness :
  ∃ error_message,
    clean "standard" "extended" [acl_edge; acl_core] add_edge_again
      = Raise (ErrorDict error_message)
    ∧ error_message !! "device" = error_message !! "name"
    ∧ error_message !! "comments" = None.
Proof.
  eexists. split; [reflexivity|].
  destruct (clean_error_dict_shape "standard" "extended"
              [acl_edge; acl_core] add_edge_again _ eq_refl)
    as (field & host & Hhost & Hsame & _ & _ & Hother).
  injection Hhost as <- <-. split; [exact Hsame|]. by apply Hother.
Defined.

(** X3 at "core-in" added to or left out of the table while a second
    "edge-in" is submitted. *)
Lemma clean_ignores_unrelated_rows_witness :
  clean "standard" "extended" ([acl_edge] ++ acl_core :: []) add_edge_again
    = clean "standard" "extended" ([acl_edge] ++ []) add_edge_again.
Proof.
  apply (clean_ignores_unrelated_rows "standard" "extended").
  left. discriminate.
Defined.

(** X4 at "edge-in" edited with only its comments changed. *)
Lemma clean_then_save_assigns_host_witness :
  ∃ field host,
    chosen_host (cleaned_data edit_edge_comments) = Some (field, host)
    ∧ assigned_object (save edit_edge_comments) = Some host.
Proof.
  apply (clean_then_save_assigns_host "standard" "extended"
           [acl_edge; acl_core] edit_edge_comments); reflexivity.
Defined.

(** X5 at a second "edge-in" saved for device 1 and opened again. *)
Lemma init_after_save_witness :
  __init__ (Some (save add_edge_again)) (Some ∅) !! "device"
    = Some (InitialHost (HostDevice device1)).
Proof.
  apply (init_after_save add_edge_again "device" (HostDevice device1) ∅).
  reflexivity.
Defined.

End AccessListFormBehaviour.

Module ACLInterfaceAssignmentFormBehaviour.
Import ACLInterfaceAssignmentForm.

(** The dict of the [else] branch of [clean], by which checks fired. *)
Definition assigned_errors (assigned_object_type host_type : string)
    (not_on_host duplicate taken : bool) : gmap string (list string) :=
  let error_message : gmap string (list string) := ∅ in
  let error_message :=
    if not_on_host
    then dict_ior error_message
           (<[host_type := [error_acl_not_assigned_to_host]]>
              (<[assigned_object_type := [error_acl_not_assigned_to_host]]>
                 (<["access_list" := [error_acl_not_assigned_to_host]]> ∅)))
    else error_message in
  let error_message :=
    if duplicate
    then dict_ior error_message
           (<[assigned_object_type := [error_duplicate_entry]]>
              (<["direction" := [error_duplicate_entry]]>
                 (<["access_list" := [error_duplicate_entry]]> ∅)))
    else error_message in
  if taken
  then dict_ior error_message
         (<[assigned_object_type := [error_interface_already_assigned]]>
            (<["direction" := [error_interface_already_assigned]]> ∅))
  else error_message.

Lemma dict_ior_insert_non_empty (d e : gmap string (list string))
    (k : string) (v : list string) :
  dict_ior d (<[k := v]> e) ≠ ∅.
Proof.
  intros H. apply (f_equal (.!! k)) in H. unfold dict_ior in H.
  rewrite lookup_union, lookup_insert_eq, lookup_empty in H.
  by destruct (d !! k).
Qed.

(** The dict stays empty only when no check fired. *)
Lemma assigned_errors_empty (assigned_object_type host_type : string)
    (not_on_host duplicate taken : bool) :
  assigned_errors assigned_object_type host_type not_on_host duplicate taken
    = ∅ →
  not_on_host = false ∧ duplicate = false ∧ taken = false.
Proof.
  unfold assigned_errors. cbv zeta.
  destruct taken; [by intros ?%dict_ior_insert_non_empty|].
  destruct duplicate; [by intros ?%dict_ior_insert_non_empty|].
  destruct not_on_host; [by intros ?%dict_ior_insert_non_empty|done].
Qed.

(** [clean] with one interface field set and an AccessList chosen. *)
Lemma clean_assigned_errors (objects : list ACLInterfaceAssignment)
    (self : Form) (c : ChosenInterface) (a : AccessList) :
  chosen_interface (cleaned_data self) = Some c →
  access_list (cleaned_data self) = Some a →
  clean objects self =
    raise_or_return
      (assigned_errors (interface_field c) (host_field c)
         (bool_decide (acl_assigned_object a ≠ Some (parent_host c)))
         (truthy (objects_filter_access_list objects a (object_id c)
                    (object_type c) (direction (cleaned_data self))))
         (truthy (objects_filter objects (object_id c) (object_type c)
                    (direction (cleaned_data self)))))
      (cleaned_data self).
Proof.
  intros Hc Ha.
  rewrite (ACLInterfaceAssignmentFormFacts.clean_chosen_interface _ _ _ Hc).
  unfold clean_assigned. by rewrite Ha.
Qed.

(** With no interface field or both set, [clean] raises an error dict. *)
Lemma clean_not_chosen (objects : list ACLInterfaceAssignment)
    (self : Form) :
  chosen_interface (cleaned_data self) = None →
  ∃ msg,
    clean objects self
    = Raise (ErrorDict (<["vminterface" := [msg]]>
                          (<["interface" := [msg]]> ∅)))
    ∧ msg ≠ error_duplicate_entry.
Proof.
  unfold chosen_interface, clean.
  destruct (interface (cleaned_data self)), (vminterface (cleaned_data self));
    intros; simplify_eq; eexists; split; try reflexivity; done.
Qed.

(** The duplicate query finds nothing where the per-direction query finds
    nothing. *)
Lemma objects_filter_access_list_none (objects : list ACLInterfaceAssignment)
    (a : AccessList) (assigned_object_id : positive)
    (assigned_object_type : ContentType) (direction : option string) :
  truthy (objects_filter objects assigned_object_id assigned_object_type
            direction) = false →
  truthy (objects_filter_access_list objects a assigned_object_id
            assigned_object_type direction) = false.
Proof.
  unfold objects_filter, objects_filter_access_list.
  rewrite !truthy_filter_false. intros H r Hr [_ HP]. by apply (H r).
Qed.

(** X6.  [clean] returns the cleaned data exactly when one interface field
    is set, an AccessList is chosen, that AccessList is assigned to the
    interface's parent host, and no stored assignment is on that interface
    in the submitted direction. *)
Theorem assignment_clean_returns_iff (objects : list ACLInterfaceAssignment)
    (self : Form) :
  clean objects self = Return (cleaned_data self) ↔
  ∃ c a,
    chosen_interface (cleaned_data self) = Some c
    ∧ access_list (cleaned_data self) = Some a
    ∧ acl_assigned_object a = Some (parent_host c)
    ∧ ∀ r, r ∈ objects → ¬ same_interface_direction (cleaned_data self) c r.
Proof.
  split.
  - intros Hclean.
    destruct (chosen_interface (cleaned_data self)) as [c|] eqn:Hc.
    2: { destruct (clean_not_chosen objects self Hc) as (msg & Hm & _).
         by rewrite Hm in Hclean. }
    destruct (access_list (cleaned_data self)) as [a|] eqn:Ha.
    2: { by rewrite (ACLInterfaceAssignmentFormFacts.clean_no_access_list
                       _ _ _ Hc Ha) in Hclean. }
    exists c, a. rewrite (clean_assigned_errors _ _ _ _ Hc Ha) in Hclean.
    apply raise_or_return_Return in Hclean as [Hm _].
    apply assigned_errors_empty in Hm as (Hhost & _ & Htaken).
    apply bool_decide_eq_false in Hhost.
    unfold objects_filter in Htaken. rewrite truthy_filter_false in Htaken.
    repeat split; try done.
    by destruct (decide (acl_assigned_object a = Some (parent_host c))).
  - intros (c & a & Hc & Ha & Hhost & Hnone).
    rewrite (clean_assigned_errors _ _ _ _ Hc Ha).
    assert (Htaken :
      truthy (objects_filter objects (object_id c) (object_type c)
                (direction (cleaned_data self))) = false)
      by (unfold objects_filter; by rewrite truthy_filter_false).
    rewrite (objects_filter_access_list_none _ _ _ _ _ Htaken), Htaken.
    rewrite bool_decide_eq_false_2 by (by intros ?). reflexivity.
Qed.

(** X7.  [clean] fails with AttributeError exactly when one interface field
    is set and [cleaned_data] holds no AccessList; with both interface
    fields set or neither it raises its validation error whatever else is
    missing. *)
Theorem assignment_clean_attribute_error_iff
    (objects : list ACLInterfaceAssignment) (self : Form) :
  clean objects self = AttributeError ↔
  is_Some (chosen_interface (cleaned_data self))
  ∧ access_list (cleaned_data self) = None.
Proof.
  split.
  - intros Hclean.
    destruct (chosen_interface (cleaned_data self)) as [c|] eqn:Hc.
    2: { destruct (clean_not_chosen objects self Hc) as (msg & Hm & _).
         by rewrite Hm in Hclean. }
    split; [done|].
    destruct (access_list (cleaned_data self)) as [a|] eqn:Ha; [|done].
    rewrite (clean_assigned_errors _ _ _ _ Hc Ha) in Hclean.
    by apply raise_or_return_not_AttributeError in Hclean.
  - intros [[c Hc] Ha].
    by apply (ACLInterfaceAssignmentFormFacts.clean_no_access_list _ _ c).
Qed.

(** X8.  With one interface field set and an AccessList chosen, whichever
    it is: when any stored assignment is on that interface in the submitted
    direction, [clean] raises the one-per-direction message under
    [direction] and under the interface field. *)
Theorem clean_interface_taken (objects : list ACLInterfaceAssignment)
    (self : Form) (c : ChosenInterface) (a : AccessList)
    (r : ACLInterfaceAssignment) :
  chosen_interface (cleaned_data self) = Some c →
  access_list (cleaned_data self) = Some a →
  r ∈ objects → same_interface_direction (cleaned_data self) c r →
  ∃ error_message,
    clean objects self = Raise (ErrorDict error_message)
    ∧ error_message !! "direction" = Some [error_interface_already_assigned]
    ∧ error_message !! interface_field c
      = Some [error_interface_already_assigned].
Proof.
  intros Hc Ha Hr Hsame.
  destruct (ACLInterfaceAssignmentFormFacts.clean_one_per_direction
              _ _ _ _ _ Hc Ha Hr Hsame) as (m & Hm & Hd & Hi & _).
  by exists m.
Qed.

(** X9.  With one interface field set and an AccessList chosen that is not
    on the interface's parent host, [clean] raises the not-present message
    under the host field in every case, under [access_list] as well when no
    stored assignment joins that AccessList to the interface in that
    direction, and under the interface field as well when no stored
    assignment at all is on the interface in that direction. *)
Theorem clean_access_list_on_other_host
    (objects : list ACLInterfaceAssignment) (self : Form)
    (c : ChosenInterface) (a : AccessList) :
  chosen_interface (cleaned_data self) = Some c →
  access_list (cleaned_data self) = Some a →
  acl_assigned_object a ≠ Some (parent_host c) →
  ∃ error_message,
    clean objects self = Raise (ErrorDict error_message)
    ∧ error_message !! host_field c = Some [error_acl_not_assigned_to_host]
    ∧ ((∀ r, r ∈ objects →
             ¬ (assignment_access_list r = acl_pk a
                ∧ same_interface_direction (cleaned_data self) c r)) →
       error_message !! "access_list"
         = Some [error_acl_not_assigned_to_host])
    ∧ ((∀ r, r ∈ objects →
             ¬ same_interface_direction (cleaned_data self) c r) →
       error_message !! interface_field c
         = Some [error_acl_not_assigned_to_host]).
Proof.
  intros Hc Ha Hhost.
  destruct (ACLInterfaceAssignmentFormFacts.clean_not_on_host
              objects _ _ _ Hc Ha Hhost) as (m & Hm & Hh & Hal & Hi).
  exists m. repeat split; try done.
  - intros Hnone. apply Hal. unfold objects_filter_access_list.
    by rewrite truthy_filter_false.
  - intros Hnone. apply Hi. unfold objects_filter.
    by rewrite truthy_filter_false.
Qed.

(** X10.  An AccessList that is assigned to a virtual chassis is refused on
    every interface and every VM interface: an interface's parent is a
    device or a virtual machine, never a virtual chassis. *)
Theorem clean_refuses_virtual_chassis_access_list
    (objects : list ACLInterfaceAssignment) (self : Form)
    (c : ChosenInterface) (a : AccessList) (vc : VirtualChassis) :
  chosen_interface (cleaned_data self) = Some c →
  access_list (cleaned_data self) = Some a →
  acl_assigned_object a = Some (HostVirtualChassis vc) →
  ∃ error_message,
    clean objects self = Raise (ErrorDict error_message)
    ∧ error_message !! host_field c = Some [error_acl_not_assigned_to_host].
Proof.
  intros Hc Ha Hvc.
  assert (Hhost : acl_assigned_object a ≠ Some (parent_host c)).
  { rewrite Hvc. unfold chosen_interface in Hc.
    destruct (interface _), (vminterface _); by simplify_eq. }
  destruct (ACLInterfaceAssignmentFormFacts.clean_not_on_host
              objects _ _ _ Hc Ha Hhost) as (m & Hm & Hh & _).
  by exists m.
Qed.

(** X11.  In no error dict that [clean] raises does the duplicate-entry
    message show under a key other than [access_list]: where the duplicate
    check wrote it under [direction] and the interface field, the
    per-direction check has written its own message over it. *)
Theorem duplicate_message_only_under_access_list
    (objects : list ACLInterfaceAssignment) (self : Form)
    (error_message : gmap string (list string)) (k : string) :
  clean objects self = Raise (ErrorDict error_message) →
  k ≠ "access_list" →
  ¬ keyed_on (ErrorDict error_message) k error_duplicate_entry.
Proof.
  intros Hclean Hk (l & Hl & Hin).
  assert (Hall : map_Forall (λ k l, k ≠ "access_list"
                                    → error_duplicate_entry ∉ l)
                   error_message);
    [|by apply (Hall k l Hl Hk)].
  clear k l Hk Hl Hin.
  destruct (chosen_interface (cleaned_data self)) as [c|] eqn:Hc.
  2: { destruct (clean_not_chosen objects self Hc) as (msg & Hm & Hmsg).
       rewrite Hm in Hclean. injection Hclean as <-.
       intros k l Hl _ Hin.
       apply lookup_insert_Some in Hl as [[_ <-]|[_ Hl]].
       { by apply list_elem_of_singleton in Hin. }
       apply lookup_insert_Some in Hl as [[_ <-]|[_ Hl]]; [|done].
       by apply list_elem_of_singleton in Hin. }
  destruct (access_list (cleaned_data self)) as [a|] eqn:Ha.
  2: { by rewrite (ACLInterfaceAssignmentFormFacts.clean_no_access_list
                     _ _ _ Hc Ha) in Hclean. }
  rewrite (clean_assigned_errors _ _ _ _ Hc Ha) in Hclean.
  apply raise_or_return_Raise in Hclean as [= ->].
  pose proof (objects_filter_access_list_none objects a (object_id c)
                (object_type c) (direction (cleaned_data self))) as Hsub.
  destruct (bool_decide _),
           (truthy (objects_filter_access_list _ _ _ _ _)),
           (truthy (objects_filter _ _ _ _));
    try (by specialize (Hsub eq_refl));
    destruct (ACLInterfaceAssignmentFormFacts.chosen_interface_fields
                _ _ Hc) as [[-> ->] | [-> ->]];
    apply (bool_decide_unpack _); vm_compute; exact I.
Qed.

(** X12.  A stored assignment on another interface, or on this interface
    in the other direction, has no say: with or without it in the table,
    [clean] does the same. *)
Theorem assignment_clean_ignores_unrelated_rows
    (objects1 objects2 : list ACLInterfaceAssignment)
    (r : ACLInterfaceAssignment) (self : Form) :
  (∀ c, chosen_interface (cleaned_data self) = Some c →
        ¬ same_interface_direction (cleaned_data self) c r) →
  clean (objects1 ++ r :: objects2) self = clean (objects1 ++ objects2) self.
Proof.
  intros Hrow.
  destruct (chosen_interface (cleaned_data self)) as [c|] eqn:Hc.
  - rewrite !(ACLInterfaceAssignmentFormFacts.clean_chosen_interface
                _ _ _ Hc).
    unfold clean_assigned.
    destruct (access_list (cleaned_data self)) as [a|]; [|done].
    pose proof (Hrow c eq_refl) as Hr.
    unfold objects_filter_access_list, objects_filter.
    rewrite !filter_app, !filter_cons.
    rewrite !decide_False; [done|..]; first [done | by intros [_ ?]].
  - unfold chosen_interface in Hc. unfold clean.
    by destruct (interface _), (vminterface _).
Qed.

(** X13.  Opening the form on what [save] left pre-fills the interface
    field that was set with the interface submitted, writes under the host
    selector that goes with it the text that names the selector (not the
    parent host), and leaves every other key of the caller's [initial] as
    it was given. *)
Theorem assignment_init_after_save (self : Form) (c : ChosenInterface)
    (initial : gmap string InitialValue) :
  chosen_interface (cleaned_data self) = Some c →
  __init__ (Some (save self)) (Some initial) !! interface_field c
    = Some (match object_row c with
            | OfInterface i => InitialInterface i
            | OfVMInterface v => InitialVMInterface v
            end)
  ∧ __init__ (Some (save self)) (Some initial) !! host_field c
    = Some (InitialText (host_field c))
  ∧ ∀ k, k ≠ interface_field c → k ≠ host_field c →
         __init__ (Some (save self)) (Some initial) !! k = initial !! k.
Proof.
  unfold chosen_interface, __init__, save. cbn.
  destruct (interface _), (vminterface _);
    intros; simplify_eq; cbn; repeat split; intros; by simplify_map_eq.
Qed.

(** X6 at "edge-in" submitted for eth0 while no assignment is stored. *)
Lemma assignment_clean_returns_iff_witness :
  clean [] assign_edge_to_eth0 = Return (cleaned_data assign_edge_to_eth0).
Proof.
  apply assignment_clean_returns_iff. exists eth0_chosen, acl_edge.
  repeat split. intros r Hr. by apply not_elem_of_nil in Hr.
Defined.

(** X7 at eth0 submitted with the Access List selector left empty. *)
Lemma assignment_clean_attribute_error_iff_witness :
  clean [edge_on_eth0] assign_nothing_to_eth0 = AttributeError.
Proof.
  apply assignment_clean_attribute_error_iff.
  split; [by eexists|reflexivity].
Defined.

(** X8 at "core-in" submitted for eth0, which carries "edge-in". *)
Lemma clean_interface_taken_witness :
  ∃ error_message,
    clean [edge_on_eth0] assign_core_to_eth0 = Raise (ErrorDict error_message)
    ∧ error_message !! "direction" = Some [error_interface_already_assigned]
    ∧ error_message !! "interface" = Some [error_interface_already_assigned].
Proof.
  apply (clean_interface_taken [edge_on_eth0] assign_core_to_eth0 eth0_chosen
           acl_core edge_on_eth0); try reflexivity.
  - apply list_elem_of_here.
  - repeat split.
Defined.

(** X9 at "core-in" submitted for eth0 while no assignment is stored. *)
Lemma clean_access_list_on_other_host_witness :
  ∃ error_message,
    clean [] assign_core_to_eth0 = Raise (ErrorDict error_message)
    ∧ error_message !! "device" = Some [error_acl_not_assigned_to_host]
    ∧ error_message !! "access_list" = Some [error_acl_not_assigned_to_host]
    ∧ error_message !! "interface" = Some [error_acl_not_assigned_to_host].
Proof.
  destruct (clean_access_list_on_other_host [] assign_core_to_eth0
              eth0_chosen acl_core eq_refl eq_refl)
    as (m & Hm & Hh & Hal & Hi); [discriminate|].
  exists m. repeat split; [exact Hm|exact Hh|apply Hal|apply Hi];
    intros r Hr; by apply not_elem_of_nil in Hr.
Defined.

(** X11 at "edge-in" submitted for eth0 a second time. *)
Lemma duplicate_message_only_under_access_list_witness :
  ∃ error_message,
    clean [edge_on_eth0] assign_edge_to_eth0 = Raise (ErrorDict error_message)
    ∧ ¬ keyed_on (ErrorDict error_message) "direction" error_duplicate_entry.
Proof.
  eexists. split; [reflexivity|].
  apply (duplicate_message_only_under_access_list [edge_on_eth0]
           assign_edge_to_eth0); [reflexivity|discriminate].
Defined.

(** X12 at an outbound assignment on eth0 added to the table while
    "edge-in" is submitted for eth0, inbound. *)
Lemma assignment_clean_ignores_unrelated_rows_witness :
  clean ([] ++ {| assignment_access_list := 2;
                  assignment_assigned_object_type := InterfaceType;
                  assignment_assigned_object_id := 10;
                  assignment_direction := "egress" |} :: [])
    assign_edge_to_eth0
  = clean ([] ++ []) assign_edge_to_eth0.
Proof.
  apply assignment_clean_ignores_unrelated_rows.
  intros c [= <-] (_ & _ & Hd). discriminate.
Defined.

(** X13 at "edge-in" saved for eth0 and opened again. *)
Lemma assignment_init_after_save_witness :
  __init__ (Some (save assign_edge_to_eth0)) (Some ∅) !! "interface"
    = Some (InitialInterface eth0)
  ∧ __init__ (Some (save assign_edge_to_eth0)) (Some ∅) !! "device"
    = Some (InitialText "device").
Proof.
  destruct (assignment_init_after_save assign_edge_to_eth0 eth0_chosen ∅
              eq_refl) as (Hi & Hh & _).
  split; [exact Hi|exact Hh].
Defined.

(** X10 at "stack-in" submitted for eth0. *)
Lemma clean_refuses_virtual_chassis_access_list_witness :
  ∃ error_message,
    clean [] assign_stack_to_eth0 = Raise (ErrorDict error_message)
    ∧ error_message !! "device" = Some [error_acl_not_assigned_to_host].
Proof.
  apply (clean_refuses_virtual_chassis_access_list [] assign_stack_to_eth0
           eth0_chosen acl_stack {| virtual_chassis_pk := 1 |});
    reflexivity.
Defined.

End ACLInterfaceAssignmentFormBehaviour.

Section rule_forms_behaviour.
Variables ERROR_MESSAGE_NO_REMARK
          ERROR_MESSAGE_ACTION_REMARK_SOURCE_PREFIX_SET
          ERROR_MESSAGE_REMARK_WITHOUT_ACTION_REMARK : string.

Local Abbreviation standard_clean :=
  (ACLStandardRuleForm.clean ERROR_MESSAGE_NO_REMARK
     ERROR_MESSAGE_ACTION_REMARK_SOURCE_PREFIX_SET
     ERROR_MESSAGE_REMARK_WITHOUT_ACTION_REMARK).
Local Abbreviation extended_clean :=
  (ACLExtendedRuleForm.clean ERROR_MESSAGE_NO_REMARK
     ERROR_MESSAGE_ACTION_REMARK_SOURCE_PREFIX_SET
     ERROR_MESSAGE_REMARK_WITHOUT_ACTION_REMARK).
Local Abbreviation extracted :=
  (ACLExtendedRuleForm._extracted_from_clean_20 ERROR_MESSAGE_NO_REMARK
     ERROR_MESSAGE_ACTION_REMARK_SOURCE_PREFIX_SET).

Lemma is_Some_if_true {A} (b : bool) (x : A) :
  is_Some (if b then Some x else None) ↔ b = true.
Proof. by destruct b. Qed.

Lemma is_Some_if_false {A} (b : bool) (x : A) :
  is_Some (if b then None else Some x) ↔ b = false.
Proof. by destruct b. Qed.

Lemma outcome_map_raise_or_return {A B} (f : A → B)
    (error_message : gmap string (list string)) (cleaned_data : A) :
  outcome_map f (raise_or_return error_message cleaned_data)
  = raise_or_return error_message (f cleaned_data).
Proof. unfold raise_or_return. by destruct (truthy error_message). Qed.

(** [_extracted_from_clean_20] writes under its six keys only. *)
Lemma extracted_from_clean_20_other
    (cleaned_data : ACLExtendedRuleForm.CleanedData) (k : string) :
  k ∉ ["remark"; "source_prefix"; "source_ports"; "destination_prefix";
       "destination_ports"; "protocol"] →
  extracted cleaned_data ∅ !! k = None.
Proof.
  intros Hk. unfold ACLExtendedRuleForm._extracted_from_clean_20. cbv zeta.
  rewrite !lookup_cond_insert_ne; [done|..];
    intros <-; apply Hk; repeat constructor.
Qed.

(** [_extracted_from_clean_20] leaves the dict empty only when the remark is
    there and no match field is set. *)
Lemma extracted_from_clean_20_empty
    (cleaned_data : ACLExtendedRuleForm.CleanedData) :
  extracted cleaned_data ∅ = ∅ ↔
  truthy (ACLExtendedRuleForm.remark cleaned_data) = true
  ∧ truthy (ACLExtendedRuleForm.source_prefix cleaned_data) = false
  ∧ truthy (ACLExtendedRuleForm.source_ports cleaned_data) = false
  ∧ truthy (ACLExtendedRuleForm.destination_prefix cleaned_data) = false
  ∧ truthy (ACLExtendedRuleForm.destination_ports cleaned_data) = false
  ∧ truthy (ACLExtendedRuleForm.protocol cleaned_data) = false.
Proof.
  split.
  - intros Hm.
    pose proof (extracted_from_clean_20_lookup ERROR_MESSAGE_NO_REMARK
                  ERROR_MESSAGE_ACTION_REMARK_SOURCE_PREFIX_SET cleaned_data)
      as H.
    cbv zeta in H. rewrite Hm, !lookup_empty in H. revert H.
    destruct (truthy (ACLExtendedRuleForm.remark cleaned_data)),
             (truthy (ACLExtendedRuleForm.source_prefix cleaned_data)),
             (truthy (ACLExtendedRuleForm.source_ports cleaned_data)),
             (truthy (ACLExtendedRuleForm.destination_prefix cleaned_data)),
             (truthy (ACLExtendedRuleForm.destination_ports cleaned_data)),
             (truthy (ACLExtendedRuleForm.protocol cleaned_data));
      intros (H1 & H2 & H3 & H4 & H5 & H6); done.
  - intros (H1 & H2 & H3 & H4 & H5 & H6).
    unfold ACLExtendedRuleForm._extracted_from_clean_20.
    by rewrite H1, H2, H3, H4, H5, H6.
Qed.

(** X14.  Each rule form returns the cleaned data exactly when the action
    is "remark", a remark is there and no match field is set, or the action
    is something else and there is no remark. *)
Theorem rule_forms_return_iff :
  (∀ self : ACLStandardRuleForm.Form,
     standard_clean self = Return (ACLStandardRuleForm.cleaned_data self) ↔
     (ACLStandardRuleForm.action (ACLStandardRuleForm.cleaned_data self)
        = Some "remark"
      ∧ truthy (ACLStandardRuleForm.remark
                  (ACLStandardRuleForm.cleaned_data self)) = true
      ∧ truthy (ACLStandardRuleForm.source_prefix
                  (ACLStandardRuleForm.cleaned_data self)) = false)
     ∨ (ACLStandardRuleForm.action (ACLStandardRuleForm.cleaned_data self)
          ≠ Some "remark"
        ∧ truthy (ACLStandardRuleForm.remark
                    (ACLStandardRuleForm.cleaned_data self)) = false))
  ∧ (∀ self : ACLExtendedRuleForm.Form,
       extended_clean self = Return (ACLExtendedRuleForm.cleaned_data self) ↔
       (ACLExtendedRuleForm.action (ACLExtendedRuleForm.cleaned_data self)
          = Some "remark"
        ∧ truthy (ACLExtendedRuleForm.remark
                    (ACLExtendedRuleForm.cleaned_data self)) = true
        ∧ truthy (ACLExtendedRuleForm.source_prefix
                    (ACLExtendedRuleForm.cleaned_data self)) = false
        ∧ truthy (ACLExtendedRuleForm.source_ports
                    (ACLExtendedRuleForm.cleaned_data self)) = false
        ∧ truthy (ACLExtendedRuleForm.destination_prefix
                    (ACLExtendedRuleForm.cleaned_data self)) = false
        ∧ truthy (ACLExtendedRuleForm.destination_ports
                    (ACLExtendedRuleForm.cleaned_data self)) = false
        ∧ truthy (ACLExtendedRuleForm.protocol
                    (ACLExtendedRuleForm.cleaned_data self)) = false)
       ∨ (ACLExtendedRuleForm.action (ACLExtendedRuleForm.cleaned_data self)
            ≠ Some "remark"
          ∧ truthy (ACLExtendedRuleForm.remark
                      (ACLExtendedRuleForm.cleaned_data self)) = false)).
Proof.
  split; intros self.
  - unfold ACLStandardRuleForm.clean. rewrite raise_or_return_Return.
    case_bool_decide as Ha;
      destruct (truthy (ACLStandardRuleForm.remark _)) eqn:Hr;
      try destruct (truthy (ACLStandardRuleForm.source_prefix _)) eqn:Hp;
      cbn; split;
      try (intros [Hm _]; by apply insert_non_empty in Hm);
      try (intros [(? & ? & ?)|[? ?]]; done); intros; auto.
  - unfold ACLExtendedRuleForm.clean. rewrite raise_or_return_Return.
    case_bool_decide as Ha.
    + rewrite extracted_from_clean_20_empty. split.
      * intros [? _]. by left.
      * intros [(_ & ?)|[? _]]; done.
    + destruct (truthy (ACLExtendedRuleForm.remark _)) eqn:Hr; split;
        try (intros [Hm _]; by apply insert_non_empty in Hm);
        try (intros [(? & ? & ?)|[? ?]]; done); intros; auto.
Qed.

(** X15.  On an extended rule with no source ports, no destination prefix,
    no destination ports and no protocol, the extended form does what the
    standard form does on the fields the two share: the same error dict, or
    a return. *)
Theorem extended_clean_as_standard (self : ACLExtendedRuleForm.Form) :
  truthy (ACLExtendedRuleForm.source_ports
            (ACLExtendedRuleForm.cleaned_data self)) = false →
  truthy (ACLExtendedRuleForm.destination_prefix
            (ACLExtendedRuleForm.cleaned_data self)) = false →
  truthy (ACLExtendedRuleForm.destination_ports
            (ACLExtendedRuleForm.cleaned_data self)) = false →
  truthy (ACLExtendedRuleForm.protocol
            (ACLExtendedRuleForm.cleaned_data self)) = false →
  outcome_map to_standard (extended_clean self)
  = standard_clean
      {| ACLStandardRuleForm.cleaned_data :=
           to_standard (ACLExtendedRuleForm.cleaned_data self) |}.
Proof.
  intros H1 H2 H3 H4.
  unfold ACLExtendedRuleForm.clean, ACLStandardRuleForm.clean.
  rewrite outcome_map_raise_or_return.
  unfold ACLExtendedRuleForm._extracted_from_clean_20.
  by rewrite H1, H2, H3, H4.
Qed.

(** X16.  The error dict of the extended form says no more than the checks
    that fired.  With action "remark" it holds the no-remark message under
    [remark] exactly when the remark is empty, each match field's message
    under that field exactly when the field is set, and no other key.  With
    another action it is the remark-without-action message under [remark]
    alone: the match fields are not looked at. *)
Theorem extended_clean_error_dict (self : ACLExtendedRuleForm.Form)
    (error_message : gmap string (list string)) :
  extended_clean self = Raise (ErrorDict error_message) →
  (ACLExtendedRuleForm.action (ACLExtendedRuleForm.cleaned_data self)
     = Some "remark" →
   (is_Some (error_message !! "remark") ↔
    truthy (ACLExtendedRuleForm.remark
              (ACLExtendedRuleForm.cleaned_data self)) = false)
   ∧ (is_Some (error_message !! "source_prefix") ↔
      truthy (ACLExtendedRuleForm.source_prefix
                (ACLExtendedRuleForm.cleaned_data self)) = true)
   ∧ (is_Some (error_message !! "source_ports") ↔
      truthy (ACLExtendedRuleForm.source_ports
                (ACLExtendedRuleForm.cleaned_data self)) = true)
   ∧ (is_Some (error_message !! "destination_prefix") ↔
      truthy (ACLExtendedRuleForm.destination_prefix
                (ACLExtendedRuleForm.cleaned_data self)) = true)
   ∧ (is_Some (error_message !! "destination_ports") ↔
      truthy (ACLExtendedRuleForm.destination_ports
                (ACLExtendedRuleForm.cleaned_data self)) = true)
   ∧ (is_Some (error_message !! "protocol") ↔
      truthy (ACLExtendedRuleForm.protocol
                (ACLExtendedRuleForm.cleaned_data self)) = true)
   ∧ (∀ k, k ∉ ["remark"; "source_prefix"; "source_ports";
                "destination_prefix"; "destination_ports"; "protocol"] →
           error_message !! k = None))
  ∧ (ACLExtendedRuleForm.action (ACLExtendedRuleForm.cleaned_data self)
       ≠ Some "remark" →
     error_message
     = {[ "remark" := [ERROR_MESSAGE_REMARK_WITHOUT_ACTION_REMARK] ]}).
Proof.
  intros Hclean. split; intros Ha.
  - rewrite (extended_clean_remark _ _ _ _ Ha) in Hclean.
    apply raise_or_return_Raise in Hclean as [= ->].
    destruct (extracted_from_clean_20_lookup ERROR_MESSAGE_NO_REMARK
                ERROR_MESSAGE_ACTION_REMARK_SOURCE_PREFIX_SET
                (ACLExtendedRuleForm.cleaned_data self))
      as (H1 & H2 & H3 & H4 & H5 & H6).
    cbv zeta in *. rewrite H1, H2, H3, H4, H5, H6.
    rewrite is_Some_if_false, !is_Some_if_true.
    repeat (split; [done|]).
    intros k Hk. by apply extracted_from_clean_20_other.
  - unfold ACLExtendedRuleForm.clean in Hclean.
    rewrite (bool_decide_eq_false_2 _ Ha) in Hclean.
    destruct (truthy (ACLExtendedRuleForm.remark _)).
    + apply raise_or_return_Raise in Hclean as [= ->]. apply insert_empty.
    + by rewrite raise_or_return_empty in Hclean.
Qed.
End rule_forms_behaviour.

(** X14 at the extended rule with action "permit" and no remark left. *)
Lemma rule_forms_return_iff_witness :
  ACLStandardRuleForm.clean "no remark" "source prefix set"
    "remark without action"
    {| ACLStandardRuleForm.cleaned_data :=
         {| ACLStandardRuleForm.action := Some "remark";
            ACLStandardRuleForm.remark := Some "blocked";
            ACLStandardRuleForm.source_prefix := None |} |}
  = Return {| ACLStandardRuleForm.action := Some "remark";
              ACLStandardRuleForm.remark := Some "blocked";
              ACLStandardRuleForm.source_prefix := None |}.
Proof.
  apply (proj1 (rule_forms_return_iff "no remark" "source prefix set"
                  "remark without action")).
  left. repeat split.
Defined.

(** X15 at the extended rule with action "permit" and remark "hello". *)
Lemma extended_clean_as_standard_witness :
  outcome_map to_standard
    (ACLExtendedRuleForm.clean "no remark" "source prefix set"
       "remark without action" permit_with_remark)
  = ACLStandardRuleForm.clean "no remark" "source prefix set"
      "remark without action"
      {| ACLStandardRuleForm.cleaned_data :=
           to_standard (ACLExtendedRuleForm.cleaned_data
                          permit_with_remark) |}.
Proof.
  apply (extended_clean_as_standard "no remark" "source prefix set"
           "remark without action" permit_with_remark); reflexivity.
Defined.

(** X16 at the extended rule with action "remark", no remark and a
    protocol. *)
Lemma extended_clean_error_dict_witness :
  ∃ error_message,
    ACLExtendedRuleForm.clean "no remark" "source prefix set"
      "remark without action" remark_with_protocol
      = Raise (ErrorDict error_message)
    ∧ is_Some (error_message !! "remark")
    ∧ is_Some (error_message !! "protocol")
    ∧ error_message !! "source_prefix" = None.
Proof.
  eexists. split; [reflexivity|].
  destruct (proj1 (extended_clean_error_dict "no remark" "source prefix set"
                     "remark without action" remark_with_protocol _ eq_refl)
              eq_refl) as (Hr & Hs & _ & _ & _ & Hp & _).
  split; [by apply Hr|]. split; [by apply Hp|].
  apply eq_None_not_Some. intros H. by apply Hs in H.
Defined.
